(** * Foodify admin console: the fetch / mutate / render layer of the
      management pages, embedded from the JSX sources.

    The pages are React function components.  Each owns a few state cells
    (the collection, a loading flag, an inline error), talks to a REST
    backend through [fetch], and derives its table body from the state.

    Layout of this development:
    - [Js]: the fragment of JavaScript the pages rely on (values as produced
      by [JSON.parse], truthiness, [||], property reads, [String(x)], [+],
      exceptions);
    - [Http]: requests, responses and the outcome of a [fetch];
    - [Ui]: what a handler does to the outside world (confirm, fetch, alert,
      download) and the rows and cells handed to the renderer;
    - one module per component: [OrderManagement], [ContactManagement],
      [ListItemsPage], [AdminPanel];
    - [StatusPill], [ListItemsView], [AddItem], [LocalStorage],
      [AdminLoginModal], [AdminNavbar]: the pill colours, the view of the
      menu items page, the add item form, and the session kept in local
      storage by the login modal and the navigation bar;
    - [Props], [MoreProps]: the vocabulary in which the properties are
      stated;
    - [JsFacts], [Shape]: lemmas on the fragment and on the records the
      views can show;
    - the properties of the pages. *)

From Stdlib Require Import ZArith String List Bool Ascii DecimalString Lia.
Import ListNotations.
#[local] Open Scope list_scope.
#[local] Open Scope string_scope.
#[local] Set Warnings "-register-all".

(* ================================================================== *)
(** ** JavaScript values and the operators the pages use *)

Module Js.

(** Values.  [JSON.parse] yields null, booleans, numbers, strings, arrays and
    objects; [JUndefined] is what reading a missing property gives and
    [JNaN] is what [+] gives on [undefined].  Numbers are the integers
    (doubles that hold an integer exactly): quantities and counts; the only
    arithmetic of the pages is the sum of quantities, and a fractional
    amount is outside this model.  An object is the list of its own
    properties in insertion order. *)
Inductive JsVal : Type :=
| JUndefined
| JNull
| JBool (b : bool)
| JNaN
| JNum (n : Z)
| JStr (s : string)
| JArr (elems : list JsVal)
| JObj (fields : list (string * JsVal)).

(** Thrown values.  Every throw in these pages is an [Error] built by the
    page, a [TypeError] raised by the engine on a bad property read or call,
    the [SyntaxError] of [JSON.parse], or the [ReferenceError] of a name
    that no scope declares (the engine's texts follow V8). *)
Inductive JsError : Type :=
| Error (msg : string)
| TypeError (msg : string)
| SyntaxError (msg : string)
| ReferenceError (msg : string).

Definition message (e : JsError) : string :=
  match e with
  | Error m | TypeError m | SyntaxError m | ReferenceError m => m
  end.

(** A computation that returns or throws. *)
Inductive Result (A : Type) : Type :=
| Ok (a : A)
| Throw (e : JsError).
Arguments Ok {A} a.
Arguments Throw {A} e.

Definition bind {A B} (c : Result A) (k : A -> Result B) : Result B :=
  match c with
  | Ok a => k a
  | Throw e => Throw e
  end.

Notation "x <- c ;; k" := (bind c (fun x => k))
  (at level 61, c at next level, right associativity).

(** [Array.prototype.map]: the callback runs left to right and the first
    throw aborts the call. *)
Fixpoint mapM {A B} (f : A -> Result B) (l : list A) : Result (list B) :=
  match l with
  | [] => Ok []
  | x :: r => y <- f x ;; ys <- mapM f r ;; Ok (y :: ys)
  end.

(** [Array.prototype.filter] with a callback that may throw. *)
Fixpoint filterM {A} (p : A -> Result bool) (l : list A) : Result (list A) :=
  match l with
  | [] => Ok []
  | x :: r =>
      b <- p x ;; ys <- filterM p r ;;
      Ok (if b then x :: ys else ys)
  end.

(** [Array.prototype.reduce] with an initial value. *)
Fixpoint foldM {A B} (f : B -> A -> Result B) (acc : B) (l : list A)
  : Result B :=
  match l with
  | [] => Ok acc
  | x :: r => acc' <- f acc x ;; foldM f acc' r
  end.

(** ToBoolean. *)
Definition truthy (v : JsVal) : bool :=
  match v with
  | JUndefined | JNull | JNaN => false
  | JBool b => b
  | JNum n => negb (n =? 0)%Z
  | JStr s => negb (s =? "")
  | JArr _ | JObj _ => true
  end.

(** [a || b]. *)
Definition or (a b : JsVal) : JsVal := if truthy a then a else b.

(** The decimal text of an integer, as [String(n)] prints it (exact below
    10^21; from there on JavaScript prints an exponent). *)
Definition string_of_Z (z : Z) : string := NilZero.string_of_int (Z.to_int z).

(** [String(v)], also what a template literal and [new Error(v)] apply.
    An array is its elements joined by commas, null and undefined elements
    giving the empty string. *)
Fixpoint ToString (v : JsVal) : string :=
  match v with
  | JUndefined => "undefined"
  | JNull => "null"
  | JBool true => "true"
  | JBool false => "false"
  | JNaN => "NaN"
  | JNum n => string_of_Z n
  | JStr s => s
  | JArr l =>
      (fix join (l : list JsVal) : string :=
         match l with
         | [] => ""
         | x :: r =>
             let sx := match x with
                       | JUndefined | JNull => ""
                       | _ => ToString x
                       end in
             match r with
             | [] => sx
             | _ :: _ => sx ++ "," ++ join r
             end
         end) l
  | JObj _ => "[object Object]"
  end.

(** Own-property lookup: the first binding of the key. *)
Fixpoint lookup (k : string) (fs : list (string * JsVal)) : option JsVal :=
  match fs with
  | [] => None
  | (k', v) :: r => if k' =? k then Some v else lookup k r
  end.

(** [{ ...o, k: v }] on the property list of [o]: an existing key keeps its
    place and takes the new value, a new key goes last. *)
Fixpoint set_field (k : string) (v : JsVal) (fs : list (string * JsVal))
  : list (string * JsVal) :=
  match fs with
  | [] => [(k, v)]
  | (k', v') :: r =>
      if k' =? k then (k, v) :: r else (k', v') :: set_field k v r
  end.

(** Reading [v.k].  The engine throws on null and undefined; a missing
    property reads as undefined.  On arrays and strings only [length] is
    resolved (for a string, its length in bytes): the pages read no index
    and no other built-in property as a value (methods are calls, below). *)
Definition get (v : JsVal) (k : string) : Result JsVal :=
  match v with
  | JUndefined | JNull =>
      Throw (TypeError ("Cannot read properties of " ++ ToString v
                        ++ " (reading '" ++ k ++ "')"))
  | JObj fs =>
      Ok (match lookup k fs with Some x => x | None => JUndefined end)
  | JArr l =>
      Ok (if k =? "length" then JNum (Z.of_nat (List.length l))
          else JUndefined)
  | JStr s =>
      Ok (if k =? "length" then JNum (Z.of_nat (String.length s))
          else JUndefined)
  | JBool _ | JNaN | JNum _ => Ok JUndefined
  end.

(** The receiver of an array method call [v.name(...)] for [map], [filter]
    and [reduce]: only arrays have them; values parsed from JSON carry no
    functions, so on anything else the call is a TypeError. *)
Definition array_method (v : JsVal) (name : string)
  : Result (list JsVal) :=
  match v with
  | JArr l => Ok l
  | JUndefined | JNull =>
      Throw (TypeError ("Cannot read properties of " ++ ToString v
                        ++ " (reading '" ++ name ++ "')"))
  | _ => Throw (TypeError (name ++ " is not a function"))
  end.

(** [v === s] for a string [s]: identifiers reach the handlers as the
    strings the backend assigned. *)
Definition strict_eq_str (v : JsVal) (s : string) : bool :=
  match v with
  | JStr t => t =? s
  | _ => false
  end.

(** ToPrimitive and ToNumber, as [+] applies them. *)
Definition ToPrimitive (v : JsVal) : JsVal :=
  match v with
  | JArr _ | JObj _ => JStr (ToString v)
  | _ => v
  end.

Definition plus (a b : JsVal) : JsVal :=
  match ToPrimitive a, ToPrimitive b with
  | JStr s, pb => JStr (s ++ ToString pb)
  | pa, JStr t => JStr (ToString pa ++ t)
  | pa, pb =>
      let num v := match v with
                   | JNum n => Some n
                   | JNull | JBool false => Some 0%Z
                   | JBool true => Some 1%Z
                   | _ => None
                   end in
      match num pa, num pb with
      | Some x, Some y => JNum (x + y)
      | _, _ => JNaN
      end
  end.

(** [String.prototype.toLowerCase] on the ASCII letters. *)
Definition lower_ascii (c : ascii) : ascii :=
  let n := nat_of_ascii c in
  if (65 <=? n)%nat && (n <=? 90)%nat then ascii_of_nat (n + 32) else c.

Fixpoint lower (s : string) : string :=
  match s with
  | EmptyString => EmptyString
  | String c r => String (lower_ascii c) (lower r)
  end.

Definition toLowerCase (v : JsVal) : Result string :=
  match v with
  | JStr s => Ok (lower s)
  | JUndefined | JNull =>
      Throw (TypeError ("Cannot read properties of " ++ ToString v
                        ++ " (reading 'toLowerCase')"))
  | _ => Throw (TypeError "toLowerCase is not a function")
  end.

(** [String.prototype.includes]. *)
Fixpoint includes (s sub : string) : bool :=
  if prefix sub s then true
  else match s with
       | EmptyString => false
       | String _ r => includes r sub
       end.

End Js.

(* ================================================================== *)
(** ** Requests, responses and settled fetches *)

Module Http.
Import Js.

Record Request : Type := mkRequest {
  url : string;
  method : string;
  headers : list (string * string);
  (** the value handed to [JSON.stringify], when the call has a body *)
  body : option JsVal
}.

(** A response as the pages observe it: its status code, and what
    [JSON.parse] makes of its text (the parsed value, or the [SyntaxError]
    it throws). *)
Record Response : Type := mkResponse {
  status : Z;
  parse : Result JsVal
}.

(** [response.ok]: the status is in the range 200-299. *)
Definition ok (r : Response) : bool :=
  ((200 <=? status r) && (status r <=? 299))%Z.

(** [await response.json()]. *)
Definition json (r : Response) : Result JsVal := parse r.

(** How the promise returned by [fetch] settles: it rejects when the request
    never completed, and resolves to the response otherwise, whatever its
    status. *)
Inductive FetchOutcome : Type :=
| Rejected (e : JsError)
| Resolved (r : Response).

Definition await (o : FetchOutcome) : Result Response :=
  match o with
  | Rejected e => Throw e
  | Resolved r => Ok r
  end.

End Http.

(* ================================================================== *)
(** ** What a handler shows and does *)

Module Ui.
Import Js Http.

(** A piece of text whose final form the host computes: a plain value, the
    text of [new Date(d).toLocaleString("en-US", {dateStyle: "medium",
    timeStyle: "short"})], or the US-dollar text of [Intl.NumberFormat]. *)
Inductive Shown : Type :=
| Val (v : JsVal)
| LocaleDate (d : JsVal)
| Currency (v : JsVal).

(** One object handed to [XLSX.utils.json_to_sheet]: column name and value,
    in the order the object literal lists them. *)
Definition SheetRow : Type := list (string * Shown).

Definition columns (r : SheetRow) : list string := map fst r.

Fixpoint cell (c : string) (r : SheetRow) : option Shown :=
  match r with
  | [] => None
  | (c', v) :: r' => if c' =? c then Some v else cell c r'
  end.

(** The [StatusPill] element: its tone and its label. *)
Record Pill : Type := mkPill { label : JsVal; tone : string }.

Inductive Cell : Type :=
| Text (children : list Shown)
| PillCell (p : Pill)
| SelectCell (value : JsVal)
| DeleteCell.

(** The rows of a table body. *)
Inductive Row : Type :=
| LoadingRow (text : string)
| ErrorRow (err : JsVal)
| EmptyRow (text : string)
| DataRow (key : JsVal) (cells : list Cell).

(** What a handler does to the world, in program order. *)
Inductive Event : Type :=
| Confirm (question : string) (answer : bool)
| Fetch (req : Request)
| ConsoleError (label : string) (e : JsError)
| Alert (text : string)
| Download (filename sheet : string) (rows : list SheetRow).

Definition is_fetch (e : Event) : bool :=
  match e with Fetch _ => true | _ => false end.

Definition is_alert (e : Event) : bool :=
  match e with Alert _ => true | _ => false end.

(** The result of running a handler to completion on a state of type [S]:
    the events it caused and the next state.  A state updater passed to a
    setter runs when React next renders, outside the handler's [try]; if it
    throws, the render fails, and [next] is that throw. *)
Record Outcome (S : Type) : Type := mkOutcome {
  next : Result S;
  trace : list Event
}.
Arguments mkOutcome {S} next trace.
Arguments next {S} o.
Arguments trace {S} o.

End Ui.

(* ================================================================== *)
(** ** The orders page ([Order-management.jsx]) *)

Module OrderManagement.
Import Js Http Ui.

Section Page.

(** [import.meta.env.VITE_API_BASE_URL], when the build defines it. *)
Variable VITE_API_BASE_URL : option string.
(** [localStorage.getItem("token")]: the stored token, or null. *)
Variable token : option string.

Definition BASE_URL : string :=
  match VITE_API_BASE_URL with
  | Some u =>
      if u =? "" then
        "https://1e20a7ed-cc85-497b-b510-b41debc2f036-00-1p28dt788ywz9.pike.replit.dev"
      else u
  | None =>
      "https://1e20a7ed-cc85-497b-b510-b41debc2f036-00-1p28dt788ywz9.pike.replit.dev"
  end.

Definition API : string := BASE_URL ++ "/api/orders".

(** [token ? `Bearer ${token}` : ""]. *)
Definition Authorization : string * string :=
  ("Authorization",
   match token with
   | Some t => if t =? "" then "" else "Bearer " ++ t
   | None => ""
   end).

(** *** Helpers *)

Definition getDeliveryPill (status : JsVal) : Pill :=
  if strict_eq_str status "delivered" then
    {| label := JStr "Delivered"; tone := "green" |}
  else if strict_eq_str status "cancelled" then
    {| label := JStr "Cancelled"; tone := "red" |}
  else {| label := JStr "Out for Delivery"; tone := "blue" |}.

Definition getPaymentPill (method : JsVal) : Result Pill :=
  m <- toLowerCase (or method (JStr "")) ;;
  if includes m "cod" || includes m "cash" then
    Ok {| label := JStr "COD"; tone := "amber" |}
  else if includes m "online" || includes m "card" || includes m "upi" then
    Ok {| label := JStr "Online"; tone := "blue" |}
  else Ok {| label := or method (JStr "Pending"); tone := "slate" |}.

Definition currency (v : JsVal) : Shown := Currency v.

(** [(items = []) => items.reduce((n, i) => n + (i.quantity || 0), 0)]:
    the default applies to undefined only. *)
Definition totalQty (items : JsVal) : Result JsVal :=
  let items := match items with JUndefined => JArr [] | _ => items end in
  l <- array_method items "reduce" ;;
  foldM (fun n i => q <- get i "quantity" ;; Ok (plus n (or q (JNum 0))))
        (JNum 0) l.

Definition formatDate (d : JsVal) : Shown :=
  if truthy d then LocaleDate d else Val (JStr "—").

(** *** State *)

Record State : Type := mkState {
  orders : JsVal;
  loading : bool;
  error : JsVal
}.

(** The three [useState] initial values. *)
Definition init : State :=
  {| orders := JArr []; loading := true; error := JNull |}.

Definition setOrders (v : JsVal) (st : State) : State :=
  {| orders := v; loading := loading st; error := error st |}.
Definition setLoading (b : bool) (st : State) : State :=
  {| orders := orders st; loading := b; error := error st |}.
Definition setError (e : JsVal) (st : State) : State :=
  {| orders := orders st; loading := loading st; error := e |}.

(** [setOrders((prev) => ...)] with an updater function. *)
Definition updateOrders (f : JsVal -> Result JsVal) (st : State)
  : Result State :=
  v <- f (orders st) ;; Ok (setOrders v st).

Definition parseJsonSafely (response : Response) : Result JsVal :=
  match parse response with
  | Ok v => Ok v
  | Throw _ => Throw (Error "Invalid server response (not JSON).")
  end.

(** *** Fetch on mount *)

Definition list_request : Request :=
  {| url := API; method := "GET";
     headers := [("Content-Type", "application/json"); Authorization];
     body := None |}.

(** The [try] block of [fetchOrders], up to the value given to
    [setOrders]. *)
Definition fetchOrders_try (settled : FetchOutcome) : Result JsVal :=
  orderRes <- await settled ;;
  orderData <- parseJsonSafely orderRes ;;
  _ <- (if negb (ok orderRes) then
          m <- get orderData "message" ;;
          Throw (Error (ToString (or m (JStr "Failed to fetch orders"))))
        else Ok tt) ;;
  d <- get orderData "data" ;;
  Ok (or d (JArr [])).

(** The state while the request is in flight. *)
Definition fetchOrders_pending (st : State) : State :=
  setError JNull (setLoading true st).

Definition fetchOrders (settled : FetchOutcome) (st : State)
  : Outcome State :=
  let st := fetchOrders_pending st in
  match fetchOrders_try settled with
  | Ok v =>
      {| next := Ok (setLoading false (setOrders v st));
         trace := [Fetch list_request] |}
  | Throw err =>
      {| next := Ok (setLoading false (setError (JStr (message err)) st));
         trace := [Fetch list_request; ConsoleError "Fetch error:" err] |}
  end.

(** *** Status update *)

Definition update_request (id newStatus : string) : Request :=
  {| url := API ++ "/" ++ id; method := "PUT";
     headers := [("Content-Type", "application/json"); Authorization];
     body := Some (JObj [("status", JStr newStatus)]) |}.

(** [!res.ok || !data.success]: the flag is read only when the status is in
    the success range. *)
Definition not_ok_or_not_success (res : Response) (data : JsVal)
  : Result bool :=
  if negb (ok res) then Ok true
  else s <- get data "success" ;; Ok (negb (truthy s)).

Definition updateStatus_try (settled : FetchOutcome) : Result unit :=
  res <- await settled ;;
  data <- parseJsonSafely res ;;
  failed <- not_ok_or_not_success res data ;;
  if failed then
    m <- get data "message" ;;
    Throw (Error (ToString (or m (JStr "Failed to update order"))))
  else Ok tt.

(** [{ ...o, status: newStatus }].  The spread copies the own properties of
    an object; it is reached only when [o._id === id], hence only on
    objects. *)
Definition with_status (newStatus : string) (o : JsVal) : JsVal :=
  match o with
  | JObj fs => JObj (set_field "status" (JStr newStatus) fs)
  | _ => JObj [("status", JStr newStatus)]
  end.

(** [prev.map((o) => (o._id === id ? { ...o, status: newStatus } : o))]. *)
Definition patch_status (id newStatus : string) (prev : JsVal)
  : Result JsVal :=
  l <- array_method prev "map" ;;
  l' <- mapM (fun o =>
                i <- get o "_id" ;;
                Ok (if strict_eq_str i id then with_status newStatus o
                    else o)) l ;;
  Ok (JArr l').

Definition updateStatus (id newStatus : string) (settled : FetchOutcome)
  (st : State) : Outcome State :=
  match updateStatus_try settled with
  | Ok _ =>
      {| next := updateOrders (patch_status id newStatus) st;
         trace := [Fetch (update_request id newStatus)] |}
  | Throw err =>
      {| next := Ok st;
         trace := [Fetch (update_request id newStatus);
                   ConsoleError "Update Error:" err;
                   Alert ("Error updating status: " ++ message err)] |}
  end.

(** *** Delete *)

Definition delete_request (id : string) : Request :=
  {| url := API ++ "/" ++ id; method := "DELETE";
     headers := [Authorization]; body := None |}.

Definition deleteOrder_try (settled : FetchOutcome) : Result unit :=
  res <- await settled ;;
  data <- parseJsonSafely res ;;
  failed <- not_ok_or_not_success res data ;;
  if failed then
    m <- get data "message" ;;
    Throw (Error (ToString (or m (JStr "Failed to delete order"))))
  else Ok tt.

(** [prev.filter((o) => o._id !== id)]. *)
Definition remove_id (id : string) (prev : JsVal) : Result JsVal :=
  l <- array_method prev "filter" ;;
  l' <- filterM (fun o => i <- get o "_id" ;;
                          Ok (negb (strict_eq_str i id))) l ;;
  Ok (JArr l').

(** [confirmed] is the answer to [window.confirm]; [settled] is how the
    request settles, and is looked at only when one is issued. *)
Definition deleteOrder (id : string) (confirmed : bool)
  (settled : FetchOutcome) (st : State) : Outcome State :=
  if negb confirmed then
    {| next := Ok st; trace := [Confirm "Delete this order?" false] |}
  else
    match deleteOrder_try settled with
    | Ok _ =>
        {| next := updateOrders (remove_id id) st;
           trace := [Confirm "Delete this order?" true;
                     Fetch (delete_request id)] |}
    | Throw err =>
        {| next := Ok st;
           trace := [Confirm "Delete this order?" true;
                     Fetch (delete_request id);
                     ConsoleError "Delete Error:" err;
                     Alert ("Error deleting order: " ++ message err)] |}
    end.

(** *** Excel export *)

(** The object built for one order, properties in source order. *)
Definition format_order (o : JsVal) : Result SheetRow :=
  id <- get o "_id" ;;
  firstName <- get o "firstName" ;;
  lastName <- get o "lastName" ;;
  email <- get o "email" ;;
  phone <- get o "phone" ;;
  address <- get o "address" ;;
  city <- get o "city" ;;
  zipCode <- get o "zipCode" ;;
  paymentMethod <- get o "paymentMethod" ;;
  status <- get o "status" ;;
  items <- get o "items" ;;
  qty <- totalQty items ;;
  totalPrice <- get o "totalPrice" ;;
  createdAt <- get o "createdAt" ;;
  Ok [("ID", Val id);
      ("Name", Val (JStr (ToString (or firstName (JStr "")) ++ " "
                          ++ ToString (or lastName (JStr "")))));
      ("Email", Val email);
      ("Phone", Val phone);
      ("Address", Val address);
      ("City", Val city);
      ("ZipCode", Val zipCode);
      ("Payment", Val paymentMethod);
      ("Status", Val status);
      ("TotalItems", Val qty);
      ("TotalPrice", Val totalPrice);
      ("CreatedAt", formatDate createdAt)].

(** [orders.map((o) => ({ ... }))]. *)
Definition formatted (orders : JsVal) : Result (list SheetRow) :=
  l <- array_method orders "map" ;;
  mapM format_order l.

(** The click handler.  The rows become the sheet "Orders" of a workbook;
    the last statement calls [downloadFile], a name this module neither
    declares nor imports, so evaluating it throws. *)
Definition exportOrdersToExcel (st : State) : Result (list Event) :=
  _ <- formatted (orders st) ;;
  Throw (ReferenceError "downloadFile is not defined").

(** *** Table body *)

Definition order_row (order : JsVal) : Result Row :=
  paymentMethod <- get order "paymentMethod" ;;
  payment <- getPaymentPill paymentMethod ;;
  status <- get order "status" ;;
  let delivery := getDeliveryPill status in
  key <- get order "_id" ;;
  email <- get order "email" ;;
  phone <- get order "phone" ;;
  address <- get order "address" ;;
  city <- get order "city" ;;
  items <- get order "items" ;;
  qty <- totalQty items ;;
  totalPrice <- get order "totalPrice" ;;
  createdAt <- get order "createdAt" ;;
  Ok (DataRow key
        [Text [Val (or (or email phone) (JStr "—"))];
         Text [Val address; Val (JStr ", "); Val city];
         Text [Val qty];
         Text [currency (or totalPrice (JNum 0))];
         Text [formatDate createdAt];
         PillCell payment;
         SelectCell status;
         PillCell delivery;
         DeleteCell]).

(** The [useMemo] over [orders], [loading], [error]. *)
Definition orderContent (st : State) : Result (list Row) :=
  if loading st then Ok [LoadingRow "Loading orders…"]
  else if truthy (error st) then Ok [ErrorRow (error st)]
  else
    len <- get (orders st) "length" ;;
    if negb (truthy len) then Ok [EmptyRow "No orders found"]
    else
      l <- array_method (orders st) "map" ;;
      mapM order_row l.

End Page.

End OrderManagement.

(* ================================================================== *)
(** ** The contact messages page ([Contact-management.jsx]) *)

Module ContactManagement.
Import Js Http Ui.

Section Page.

Variable VITE_API_BASE_URL : option string.

Definition BASE_URL : string :=
  match VITE_API_BASE_URL with
  | Some u =>
      if u =? "" then
        "https://1e20a7ed-cc85-497b-b510-b41debc2f036-00-1p28dt788ywz9.pike.replit.dev"
      else u
  | None =>
      "https://1e20a7ed-cc85-497b-b510-b41debc2f036-00-1p28dt788ywz9.pike.replit.dev"
  end.

Definition CONTACT_API : string := BASE_URL ++ "/api/contact".

Definition formatDate (d : JsVal) : Shown :=
  if truthy d then LocaleDate d else Val (JStr "—").

Record State : Type := mkState {
  contacts : JsVal;
  loading : bool;
  error : JsVal
}.

Definition init : State :=
  {| contacts := JArr []; loading := true; error := JNull |}.

Definition setContacts (v : JsVal) (st : State) : State :=
  {| contacts := v; loading := loading st; error := error st |}.
Definition setLoading (b : bool) (st : State) : State :=
  {| contacts := contacts st; loading := b; error := error st |}.
Definition setError (e : JsVal) (st : State) : State :=
  {| contacts := contacts st; loading := loading st; error := e |}.

Definition updateContacts (f : JsVal -> Result JsVal) (st : State)
  : Result State :=
  v <- f (contacts st) ;; Ok (setContacts v st).

Definition parseJsonSafely (response : Response) : Result JsVal :=
  match parse response with
  | Ok v => Ok v
  | Throw _ => Throw (Error "Invalid server response (not JSON).")
  end.

(** *** Fetch on mount *)

Definition list_request : Request :=
  {| url := CONTACT_API; method := "GET";
     headers := [("Content-Type", "application/json")]; body := None |}.

Definition isArray (v : JsVal) : bool :=
  match v with JArr _ => true | _ => false end.

(** The [try] block of [fetchContacts], up to the value given to
    [setContacts]: [Array.isArray(data) ? data : data.data || []]. *)
Definition fetchContacts_try (settled : FetchOutcome) : Result JsVal :=
  res <- await settled ;;
  data <- parseJsonSafely res ;;
  _ <- (if negb (ok res) then
          m <- get data "message" ;;
          Throw (Error (ToString (or m (JStr "Failed to fetch contacts"))))
        else Ok tt) ;;
  if isArray data then Ok data
  else d <- get data "data" ;; Ok (or d (JArr [])).

Definition fetchContacts_pending (st : State) : State :=
  setError JNull (setLoading true st).

Definition fetchContacts (settled : FetchOutcome) (st : State)
  : Outcome State :=
  let st := fetchContacts_pending st in
  match fetchContacts_try settled with
  | Ok v =>
      {| next := Ok (setLoading false (setContacts v st));
         trace := [Fetch list_request] |}
  | Throw err =>
      {| next := Ok (setLoading false (setError (JStr (message err)) st));
         trace := [Fetch list_request; ConsoleError "Fetch error:" err] |}
  end.

(** *** Delete *)

Definition delete_request (id : string) : Request :=
  {| url := CONTACT_API ++ "/" ++ id; method := "DELETE";
     headers := [("Content-Type", "application/json")]; body := None |}.

Definition deleteContact_try (settled : FetchOutcome) : Result unit :=
  res <- await settled ;;
  data <- parseJsonSafely res ;;
  if negb (ok res) then
    m <- get data "message" ;;
    Throw (Error (ToString (or m (JStr "Failed to delete contact"))))
  else Ok tt.

(** [prev.filter((c) => c._id !== id)]. *)
Definition remove_id (id : string) (prev : JsVal) : Result JsVal :=
  l <- array_method prev "filter" ;;
  l' <- filterM (fun c => i <- get c "_id" ;;
                          Ok (negb (strict_eq_str i id))) l ;;
  Ok (JArr l').

Definition deleteContact (id : string) (confirmed : bool)
  (settled : FetchOutcome) (st : State) : Outcome State :=
  if negb confirmed then
    {| next := Ok st;
       trace := [Confirm "Delete this contact message?" false] |}
  else
    match deleteContact_try settled with
    | Ok _ =>
        {| next := updateContacts (remove_id id) st;
           trace := [Confirm "Delete this contact message?" true;
                     Fetch (delete_request id)] |}
    | Throw err =>
        {| next := Ok st;
           trace := [Confirm "Delete this contact message?" true;
                     Fetch (delete_request id);
                     ConsoleError "Delete contact error:" err;
                     Alert ("Error deleting contact: " ++ message err)] |}
    end.

(** *** Excel export *)

Definition format_contact (c : JsVal) : Result SheetRow :=
  id <- get c "_id" ;;
  fullName <- get c "fullName" ;;
  emailAddress <- get c "emailAddress" ;;
  phoneNumber <- get c "phoneNumber" ;;
  address <- get c "address" ;;
  dishName <- get c "dishName" ;;
  query <- get c "query" ;;
  createdAt <- get c "createdAt" ;;
  Ok [("ID", Val id);
      ("Name", Val fullName);
      ("Email", Val emailAddress);
      ("Phone", Val phoneNumber);
      ("Address", Val address);
      ("Dish", Val dishName);
      ("Message", Val query);
      ("CreatedAt", formatDate createdAt)].

Definition formatted (contacts : JsVal) : Result (list SheetRow) :=
  l <- array_method contacts "map" ;;
  mapM format_contact l.

(** The click handler; [downloadFile] is the helper at the top of this
    module, which saves the workbook under the given name. *)
Definition exportContactsToExcel (st : State) : Result (list Event) :=
  rows <- formatted (contacts st) ;;
  Ok [Download "Contacts_Report.xlsx" "Contacts" rows].

(** *** Table body *)

Definition contact_row (c : JsVal) : Result Row :=
  key <- get c "_id" ;;
  fullName <- get c "fullName" ;;
  emailAddress <- get c "emailAddress" ;;
  phoneNumber <- get c "phoneNumber" ;;
  dishName <- get c "dishName" ;;
  query <- get c "query" ;;
  createdAt <- get c "createdAt" ;;
  Ok (DataRow key
        [Text [Val fullName];
         Text [Val emailAddress];
         Text [Val phoneNumber];
         Text [Val dishName];
         Text [Val query];
         Text [formatDate createdAt];
         DeleteCell]).

(** The children of [<tbody>]: [loading ? ... : error ? ... :
    contacts.length ? contacts.map(...) : ...]. *)
Definition tableBody (st : State) : Result (list Row) :=
  if loading st then Ok [LoadingRow "Loading contacts…"]
  else if truthy (error st) then Ok [ErrorRow (error st)]
  else
    len <- get (contacts st) "length" ;;
    if truthy len then
      l <- array_method (contacts st) "map" ;;
      mapM contact_row l
    else Ok [EmptyRow "No contact messages found"].

End Page.

End ContactManagement.

(* ================================================================== *)
(** ** The menu items page ([ListItemsPage]) *)

Module ListItemsPage.
Import Js Http Ui.

Record State : Type := mkState {
  items : JsVal;
  loading : bool
}.

(** [useState([])] and [useState(false)]; the page keeps no error state. *)
Definition init : State := {| items := JArr []; loading := false |}.

Definition setItems (v : JsVal) (st : State) : State :=
  {| items := v; loading := loading st |}.
Definition setLoading (b : bool) (st : State) : State :=
  {| items := items st; loading := b |}.

Definition list_request : Request :=
  {| url := "https://1e20a7ed-cc85-497b-b510-b41debc2f036-00-1p28dt788ywz9.pike.replit.dev//api/menu";
     method := "GET"; headers := []; body := None |}.

(** The [try] block of [fetchItems] after [setLoading(true)]: the value for
    [setItems] when [data.success] is truthy, nothing when it is not. *)
Definition fetchItems_try (settled : FetchOutcome)
  : Result (option JsVal) :=
  res <- await settled ;;
  data <- json res ;;
  s <- get data "success" ;;
  if truthy s then d <- get data "data" ;; Ok (Some d)
  else Ok None.

Definition fetchItems_pending (st : State) : State := setLoading true st.

Definition fetchItems (settled : FetchOutcome) (st : State)
  : Outcome State :=
  let st := fetchItems_pending st in
  match fetchItems_try settled with
  | Ok (Some v) =>
      {| next := Ok (setLoading false (setItems v st));
         trace := [Fetch list_request] |}
  | Ok None =>
      {| next := Ok (setLoading false st);
         trace := [Fetch list_request; Alert "Failed to fetch items"] |}
  | Throw err =>
      {| next := Ok (setLoading false st);
         trace := [Fetch list_request;
                   ConsoleError "Error fetching items:" err;
                   Alert "Error fetching items"] |}
  end.

Definition delete_request (id : string) : Request :=
  {| url := "https://1e20a7ed-cc85-497b-b510-b41debc2f036-00-1p28dt788ywz9.pike.replit.dev//api/menu/" ++ id;
     method := "DELETE"; headers := []; body := None |}.

(** [items.filter((item) => item._id !== id)], evaluated inside the [try]
    on the collection the handler closed over. *)
Definition remove_id (id : string) (items : JsVal) : Result JsVal :=
  l <- array_method items "filter" ;;
  l' <- filterM (fun item => i <- get item "_id" ;;
                             Ok (negb (strict_eq_str i id))) l ;;
  Ok (JArr l').

(** The [try] block of [handleDelete]: the new collection on success, the
    text to alert when [data.success] is falsy. *)
Definition handleDelete_try (id : string) (settled : FetchOutcome)
  (st : State) : Result (JsVal + JsVal) :=
  res <- await settled ;;
  data <- json res ;;
  s <- get data "success" ;;
  if truthy s then v <- remove_id id (items st) ;; Ok (inl v)
  else m <- get data "message" ;;
       Ok (inr (or m (JStr "Failed to delete item"))).

Definition handleDelete (id : string) (confirmed : bool)
  (settled : FetchOutcome) (st : State) : Outcome State :=
  if negb confirmed then
    {| next := Ok st;
       trace := [Confirm "Are you sure you want to delete this item?"
                         false] |}
  else
    match handleDelete_try id settled st with
    | Ok (inl v) =>
        {| next := Ok (setItems v st);
           trace := [Confirm "Are you sure you want to delete this item?"
                             true;
                     Fetch (delete_request id)] |}
    | Ok (inr text) =>
        {| next := Ok st;
           trace := [Confirm "Are you sure you want to delete this item?"
                             true;
                     Fetch (delete_request id);
                     Alert (ToString text)] |}
    | Throw err =>
        {| next := Ok st;
           trace := [Confirm "Are you sure you want to delete this item?"
                             true;
                     Fetch (delete_request id);
                     ConsoleError "Error deleting item:" err;
                     Alert "Error deleting item"] |}
    end.

End ListItemsPage.

(* ================================================================== *)
(** ** The combined admin panel ([AdminPanel], orders and contacts) *)

Module AdminPanel.
Import Js Http Ui.

Section Page.

Variable VITE_API_BASE_URL : option string.
Variable token : option string.

Definition BASE_URL : string :=
  match VITE_API_BASE_URL with
  | Some u =>
      if u =? "" then
        "https://1e20a7ed-cc85-497b-b510-b41debc2f036-00-1p28dt788ywz9.pike.replit.dev/"
      else u
  | None =>
      "https://1e20a7ed-cc85-497b-b510-b41debc2f036-00-1p28dt788ywz9.pike.replit.dev/"
  end.

Definition API : string := BASE_URL ++ "/api/orders".

Definition CONTACT_API : string :=
  "https://1e20a7ed-cc85-497b-b510-b41debc2f036-00-1p28dt788ywz9.pike.replit.dev/contact".

Definition Authorization : string * string :=
  ("Authorization",
   match token with
   | Some t => if t =? "" then "" else "Bearer " ++ t
   | None => ""
   end).

Record State : Type := mkState {
  orders : JsVal;
  contacts : JsVal;
  loading : bool;
  error : JsVal
}.

Definition init : State :=
  {| orders := JArr []; contacts := JArr []; loading := true;
     error := JNull |}.

Definition setOrders (v : JsVal) (st : State) : State :=
  {| orders := v; contacts := contacts st; loading := loading st;
     error := error st |}.
Definition setContacts (v : JsVal) (st : State) : State :=
  {| orders := orders st; contacts := v; loading := loading st;
     error := error st |}.
Definition setLoading (b : bool) (st : State) : State :=
  {| orders := orders st; contacts := contacts st; loading := b;
     error := error st |}.
Definition setError (e : JsVal) (st : State) : State :=
  {| orders := orders st; contacts := contacts st; loading := loading st;
     error := e |}.

Definition updateOrders (f : JsVal -> Result JsVal) (st : State)
  : Result State :=
  v <- f (orders st) ;; Ok (setOrders v st).
Definition updateContacts (f : JsVal -> Result JsVal) (st : State)
  : Result State :=
  v <- f (contacts st) ;; Ok (setContacts v st).

Definition parseJsonSafely (response : Response) : Result JsVal :=
  match parse response with
  | Ok v => Ok v
  | Throw _ => Throw (Error "Invalid server response (not JSON).")
  end.

Definition orders_request : Request :=
  {| url := API; method := "GET";
     headers := [("Content-Type", "application/json"); Authorization];
     body := None |}.

Definition contacts_request : Request :=
  {| url := CONTACT_API; method := "GET";
     headers := [("Content-Type", "application/json")]; body := None |}.

(** The [try] block of [fetchData].  [settled] is how [Promise.all] over
    the two requests settles: rejected with the error of the first request
    to fail, or resolved to both responses.  The result is the pair given
    to [setOrders] and [setContacts]. *)
Definition fetchData_try (settled : Result (Response * Response))
  : Result (JsVal * JsVal) :=
  both <- settled ;;
  let (orderRes, contactRes) := both in
  orderData <- parseJsonSafely orderRes ;;
  contactData <- parseJsonSafely contactRes ;;
  _ <- (if negb (ok orderRes) then
          m <- get orderData "message" ;;
          Throw (Error (ToString (or m (JStr "Failed to fetch orders"))))
        else Ok tt) ;;
  _ <- (if negb (ok contactRes) then
          m <- get contactData "message" ;;
          Throw (Error (ToString (or m (JStr "Failed to fetch contacts"))))
        else Ok tt) ;;
  d <- get orderData "data" ;;
  Ok (or d (JArr []), or contactData (JArr [])).

Definition fetchData_pending (st : State) : State :=
  setError JNull (setLoading true st).

Definition fetchData (settled : Result (Response * Response)) (st : State)
  : Outcome State :=
  let st := fetchData_pending st in
  match fetchData_try settled with
  | Ok (o, c) =>
      {| next := Ok (setLoading false (setContacts c (setOrders o st)));
         trace := [Fetch orders_request; Fetch contacts_request] |}
  | Throw err =>
      {| next := Ok (setLoading false (setError (JStr (message err)) st));
         trace := [Fetch orders_request; Fetch contacts_request;
                   ConsoleError " Fetch error:" err] |}
  end.

(** The three mutation handlers repeat the text of the two pages; their
    [try] blocks and updaters are those of [OrderManagement] and
    [ContactManagement]. *)

Definition update_request (id newStatus : string) : Request :=
  {| url := API ++ "/" ++ id; method := "PUT";
     headers := [("Content-Type", "application/json"); Authorization];
     body := Some (JObj [("status", JStr newStatus)]) |}.

Definition updateStatus (id newStatus : string) (settled : FetchOutcome)
  (st : State) : Outcome State :=
  match OrderManagement.updateStatus_try settled with
  | Ok _ =>
      {| next := updateOrders (OrderManagement.patch_status id newStatus) st;
         trace := [Fetch (update_request id newStatus)] |}
  | Throw err =>
      {| next := Ok st;
         trace := [Fetch (update_request id newStatus);
                   ConsoleError " Update Error:" err;
                   Alert ("Error updating status: " ++ message err)] |}
  end.

Definition delete_order_request (id : string) : Request :=
  {| url := API ++ "/" ++ id; method := "DELETE";
     headers := [Authorization]; body := None |}.

Definition deleteOrder (id : string) (confirmed : bool)
  (settled : FetchOutcome) (st : State) : Outcome State :=
  if negb confirmed then
    {| next := Ok st; trace := [Confirm "Delete this order?" false] |}
  else
    match OrderManagement.deleteOrder_try settled with
    | Ok _ =>
        {| next := updateOrders (OrderManagement.remove_id id) st;
           trace := [Confirm "Delete this order?" true;
                     Fetch (delete_order_request id)] |}
    | Throw err =>
        {| next := Ok st;
           trace := [Confirm "Delete this order?" true;
                     Fetch (delete_order_request id);
                     ConsoleError " Delete Error:" err;
                     Alert ("Error deleting order: " ++ message err)] |}
    end.

Definition delete_contact_request (id : string) : Request :=
  {| url := CONTACT_API ++ "/" ++ id; method := "DELETE";
     headers := [("Content-Type", "application/json")]; body := None |}.

Definition deleteContact (id : string) (confirmed : bool)
  (settled : FetchOutcome) (st : State) : Outcome State :=
  if negb confirmed then
    {| next := Ok st;
       trace := [Confirm "Delete this contact message?" false] |}
  else
    match ContactManagement.deleteContact_try settled with
    | Ok _ =>
        {| next := updateContacts (ContactManagement.remove_id id) st;
           trace := [Confirm "Delete this contact message?" true;
                     Fetch (delete_contact_request id)] |}
    | Throw err =>
        {| next := Ok st;
           trace := [Confirm "Delete this contact message?" true;
                     Fetch (delete_contact_request id);
                     ConsoleError "Delete contact error:" err;
                     Alert ("Error deleting contact: " ++ message err)] |}
    end.

(** The exporters build the same rows as the pages and hand the workbook to
    [saveAs] of [file-saver]. *)
Definition exportOrdersToExcel (st : State) : Result (list Event) :=
  rows <- OrderManagement.formatted (orders st) ;;
  Ok [Download "Orders_Report.xlsx" "Orders" rows].

Definition exportContactsToExcel (st : State) : Result (list Event) :=
  rows <- ContactManagement.formatted (contacts st) ;;
  Ok [Download "Contacts_Report.xlsx" "Contacts" rows].

(** The orders table body, as on the orders page. *)
Definition orderContent (st : State) : Result (list Row) :=
  if loading st then Ok [LoadingRow "Loading orders…"]
  else if truthy (error st) then Ok [ErrorRow (error st)]
  else
    len <- get (orders st) "length" ;;
    if negb (truthy len) then Ok [EmptyRow "No orders found"]
    else
      l <- array_method (orders st) "map" ;;
      mapM OrderManagement.order_row l.

(** The contacts table body: [contacts.length ? contacts.map(...) : ...],
    with no loading and no error row. *)
Definition contactContent (st : State) : Result (list Row) :=
  len <- get (contacts st) "length" ;;
  if truthy len then
    l <- array_method (contacts st) "map" ;;
    mapM ContactManagement.contact_row l
  else Ok [EmptyRow "No contact messages found"].

End Page.

End AdminPanel.

(* ================================================================== *)
(** ** The pill colours ([StatusPill]) *)

Module StatusPill.

(** The [colors] table of the component: the classes of each tone. *)
Definition colors : list (string * string) :=
  [("green", "bg-green-800/30 text-green-300 border-green-700/40");
   ("amber", "bg-amber-800/30 text-amber-300 border-amber-700/40");
   ("red", "bg-red-800/30 text-red-300 border-red-700/40");
   ("blue", "bg-blue-800/30 text-blue-300 border-blue-700/40");
   ("slate", "bg-slate-800/30 text-slate-300 border-slate-700/40")].

(** The own entry of [colors] for a tone, if it has one. *)
Fixpoint color (tone : string) (table : list (string * string))
  : option string :=
  match table with
  | [] => None
  | (t, c) :: r => if t =? tone then Some c else color tone r
  end.

End StatusPill.

(* ================================================================== *)
(** ** What the menu items page shows *)

Module ListItemsView.
Import Js Http Ui.

(** One line of the items grid: the values handed to the renderer, in the
    order the markup reads them.  [rating] is the argument of
    [renderStars]. *)
Record ItemRow : Type := mkItemRow {
  key : JsVal;
  image : JsVal;
  alt : JsVal;
  name : JsVal;
  description : JsVal;
  category : JsVal;
  price : JsVal;
  rating : JsVal;
  popularity : JsVal
}.

Inductive View : Type :=
| Loading
| Empty
| Grid (rows : list ItemRow).

Definition item_row (item : JsVal) : Result ItemRow :=
  key <- get item "_id" ;;
  image <- get item "image" ;;
  alt <- get item "name" ;;
  name <- get item "name" ;;
  description <- get item "description" ;;
  category <- get item "category" ;;
  price <- get item "price" ;;
  rating <- get item "rating" ;;
  popularity <- get item "popularity" ;;
  Ok {| key := key; image := image; alt := alt; name := name;
        description := description; category := category; price := price;
        rating := rating; popularity := popularity |}.

(** [v === 0]. *)
Definition is_zero (v : JsVal) : bool :=
  match v with
  | JNum 0 => true
  | _ => false
  end.

(** [loading ? ... : items.length === 0 ? ... : items.map(...)]. *)
Definition view (st : ListItemsPage.State) : Result View :=
  if ListItemsPage.loading st then Ok Loading
  else
    len <- get (ListItemsPage.items st) "length" ;;
    if is_zero len then Ok Empty
    else
      l <- array_method (ListItemsPage.items st) "map" ;;
      rows <- mapM item_row l ;;
      Ok (Grid rows).

End ListItemsView.

(* ================================================================== *)
(** ** The add item page ([AddItem.jsx]) *)

Module AddItem.
Import Js Http.

(** The form.  The text inputs and the select store what was typed; the
    rating is set by a click on a star and the popularity by [parseInt], so
    both are numbers. *)
Record FormData : Type := mkFormData {
  name : string;
  description : string;
  category : string;
  price : string;
  rating : Z;
  popularity : Z
}.

Definition emptyForm : FormData :=
  {| name := ""; description := ""; category := ""; price := "";
     rating := 0; popularity := 0 |}.

(** A file picked in the file input, by its name. *)
Inductive File : Type := mkFile (file_name : string).

Record State : Type := mkState {
  formData : FormData;
  selectedImage : option File;
  imagePreview : option string;
  loading : bool
}.

Definition init : State :=
  {| formData := emptyForm; selectedImage := None; imagePreview := None;
     loading := false |}.

Definition setFormData (f : FormData) (st : State) : State :=
  {| formData := f; selectedImage := selectedImage st;
     imagePreview := imagePreview st; loading := loading st |}.
Definition setSelectedImage (i : option File) (st : State) : State :=
  {| formData := formData st; selectedImage := i;
     imagePreview := imagePreview st; loading := loading st |}.
Definition setImagePreview (p : option string) (st : State) : State :=
  {| formData := formData st; selectedImage := selectedImage st;
     imagePreview := p; loading := loading st |}.
Definition setLoading (b : bool) (st : State) : State :=
  {| formData := formData st; selectedImage := selectedImage st;
     imagePreview := imagePreview st; loading := b |}.

(** A value appended to the [FormData] of the request. *)
Inductive FormValue : Type :=
| FText (s : string)
| FFile (f : File).

Inductive Event : Type :=
| Alert (text : string)
| Post (url : string) (form : list (string * FormValue))
| ConsoleError (label : string) (e : JsError)
| ReadAsDataURL (f : File).

Definition is_post (e : Event) : bool :=
  match e with Post _ _ => true | _ => false end.

Definition is_alert (e : Event) : bool :=
  match e with Alert _ => true | _ => false end.

Record Outcome : Type := mkOutcome {
  next : State;
  trace : list Event
}.

(** [handleImageUpload]: [file] is [event.target.files?.[0]]. *)
Definition handleImageUpload (file : option File) (st : State) : Outcome :=
  match file with
  | Some f =>
      {| next := setSelectedImage (Some f) st; trace := [ReadAsDataURL f] |}
  | None => {| next := st; trace := [] |}
  end.

(** The [onload] callback of the reader, with the data URL it read. *)
Definition reader_onload (result : string) (st : State) : State :=
  setImagePreview (Some result) st.

(** [setFormData((prev) => ({ ...prev, rating }))]. *)
Definition handleRatingClick (rating : Z) (st : State) : State :=
  let prev := formData st in
  setFormData {| name := name prev; description := description prev;
                 category := category prev; price := price prev;
                 rating := rating; popularity := popularity prev |} st.

(** The five stars of the form: [star <= formData.rating] for each of
    1 to 5, true for a filled star. *)
Definition stars (st : State) : list bool :=
  map (fun star => (star <=? rating (formData st))%Z) [1; 2; 3; 4; 5]%Z.

(** [Object.entries(formData)], each value as [FormData.append] stores it,
    then the image when one is selected. *)
Definition form_entries (st : State) : list (string * FormValue) :=
  let f := formData st in
  ([("name", FText (name f));
    ("description", FText (description f));
    ("category", FText (category f));
    ("price", FText (price f));
    ("rating", FText (string_of_Z (rating f)));
    ("popularity", FText (string_of_Z (popularity f)))]
   ++ match selectedImage st with
      | Some file => [("image", FFile file)]
      | None => []
      end)%list.

Definition API : string :=
  "https://1e20a7ed-cc85-497b-b510-b41debc2f036-00-1p28dt788ywz9.pike.replit.dev/api/menu".

(** The [try] block of [handleSubmit] after the request: nothing when the
    item was added, the text to alert when it was not. *)
Definition handleSubmit_try (settled : FetchOutcome)
  : Result (option string) :=
  response <- await settled ;;
  result <- json response ;;
  added <- (if ok response then s <- get result "success" ;; Ok (truthy s)
            else Ok false) ;;
  if added then Ok None
  else
    m <- get result "message" ;;
    Ok (Some (ToString (plus (JStr "Failed: ")
                             (or m (JStr "Unknown error"))))).

Definition handleSubmit (settled : FetchOutcome) (st : State) : Outcome :=
  let f := formData st in
  if (name f =? "") || (category f =? "") || (price f =? "") then
    {| next := st; trace := [Alert "Please fill all required fields"] |}
  else
    match handleSubmit_try settled with
    | Ok None =>
        {| next := setLoading false
                     (setImagePreview None
                        (setSelectedImage None
                           (setFormData emptyForm (setLoading true st))));
           trace := [Post API (form_entries st);
                     Alert "Item added successfully"] |}
    | Ok (Some text) =>
        {| next := setLoading false (setLoading true st);
           trace := [Post API (form_entries st); Alert text] |}
    | Throw err =>
        {| next := setLoading false (setLoading true st);
           trace := [Post API (form_entries st);
                     ConsoleError "Error:" err;
                     Alert "Something went wrong"] |}
    end.

End AddItem.

(* ================================================================== *)
(** ** The browser's local storage *)

Module LocalStorage.
Import Js.

(** A stored text: a plain string, or the text [JSON.stringify] makes of a
    value. *)
Inductive Stored : Type :=
| Text (s : string)
| Stringified (v : JsVal).

Definition Storage : Type := list (string * Stored).

Fixpoint getItem (k : string) (s : Storage) : option Stored :=
  match s with
  | [] => None
  | (k', v) :: r => if k' =? k then Some v else getItem k r
  end.

Fixpoint removeItem (k : string) (s : Storage) : Storage :=
  match s with
  | [] => []
  | (k', v) :: r =>
      if k' =? k then removeItem k r else (k', v) :: removeItem k r
  end.

Definition setItem (k : string) (v : Stored) (s : Storage) : Storage :=
  (k, v) :: removeItem k s.

(** [!!localStorage.getItem(k)]: the key is present with a non-empty text
    (the text of [JSON.stringify] is never empty). *)
Definition present (k : string) (s : Storage) : bool :=
  match getItem k s with
  | Some (Text t) => negb (t =? "")
  | Some (Stringified _) => true
  | None => false
  end.

End LocalStorage.

(* ================================================================== *)
(** ** The admin login modal ([AdminLoginModal]) *)

Module AdminLoginModal.
Import Js Http LocalStorage.

Record FormData : Type := mkFormData {
  email : string;
  password : string
}.

Record State : Type := mkState {
  formData : FormData;
  loading : bool;
  error : JsVal
}.

Definition init : State :=
  {| formData := {| email := ""; password := "" |}; loading := false;
     error := JStr "" |}.

Definition setFormData (f : FormData) (st : State) : State :=
  {| formData := f; loading := loading st; error := error st |}.
Definition setLoading (b : bool) (st : State) : State :=
  {| formData := formData st; loading := b; error := error st |}.
Definition setError (e : JsVal) (st : State) : State :=
  {| formData := formData st; loading := loading st; error := e |}.

(** The two inputs of the form, by their [name]. *)
Inductive Field : Type := Email | Password.

(** [setFormData((prev) => ({ ...prev, [e.target.name]: e.target.value }))]
    for the two inputs that use it. *)
Definition handleChange (field : Field) (value : string) (st : State)
  : State :=
  let prev := formData st in
  match field with
  | Email => setFormData {| email := value; password := password prev |} st
  | Password => setFormData {| email := email prev; password := value |} st
  end.

Inductive Event : Type :=
| Fetch (req : Request)
| Close
| Navigate (path : string) (message : string).

Definition is_navigate (e : Event) : bool :=
  match e with Navigate _ _ => true | _ => false end.

Record Outcome : Type := mkOutcome {
  next : State;
  storage : Storage;
  trace : list Event
}.

Definition login_request (f : FormData) : Request :=
  {| url := "http://localhost:5000/api/auth/login"; method := "POST";
     headers := [("Content-Type", "application/json")];
     body := Some (JObj [("email", JStr (email f));
                         ("password", JStr (password f))]) |}.

(** How the [try] block of [handleSubmit] ends when it does not throw: with
    an error to show, or with the session to store ([data.data.token] and
    [data.data]). *)
Inductive Verdict : Type :=
| Refused (shown : JsVal)
| Granted (token : JsVal) (user : JsVal).

Definition handleSubmit_try (settled : FetchOutcome) : Result Verdict :=
  res <- await settled ;;
  data <- json res ;;
  if negb (ok res) then
    m <- get data "message" ;;
    Ok (Refused (or m (JStr "Login failed")))
  else
    d <- get data "data" ;;
    role <- get d "role" ;;
    if negb (strict_eq_str role "admin") then
      Ok (Refused (JStr "Access denied. Admin only."))
    else
      token <- get d "token" ;;
      Ok (Granted token d).

(** [localStorage] is [store] when the handler starts. *)
Definition handleSubmit (settled : FetchOutcome) (store : Storage)
  (st : State) : Outcome :=
  let st := setError (JStr "") st in
  let f := formData st in
  if (email f =? "") || (password f =? "") then
    {| next := setError (JStr "All fields are required.") st;
       storage := store; trace := [] |}
  else
    match handleSubmit_try settled with
    | Ok (Refused shown) =>
        {| next := setLoading false (setError shown (setLoading true st));
           storage := store; trace := [Fetch (login_request f)] |}
    | Ok (Granted token user) =>
        {| next := setLoading false (setLoading true st);
           storage := setItem "adminUser" (Stringified user)
                        (setItem "adminToken" (Text (ToString token))
                           store);
           trace := [Fetch (login_request f); Close;
                     Navigate "/orders" "Admin login successful"] |}
    | Throw err =>
        {| next := setLoading false
                     (setError (or (JStr (message err))
                                   (JStr "Server error"))
                        (setLoading true st));
           storage := store; trace := [Fetch (login_request f)] |}
    end.

End AdminLoginModal.

(* ================================================================== *)
(** ** The navigation bar ([AdminNavbar]) *)

Module AdminNavbar.
Import LocalStorage.

Record State : Type := mkState {
  isOpen : bool;
  isLoginOpen : bool;
  isLoggedIn : bool
}.

Definition init : State :=
  {| isOpen := false; isLoginOpen := false; isLoggedIn := false |}.

Definition setIsLoggedIn (b : bool) (st : State) : State :=
  {| isOpen := isOpen st; isLoginOpen := isLoginOpen st; isLoggedIn := b |}.

(** The effect run on mount: [setIsLoggedIn(!!token)]. *)
Definition mount (store : Storage) (st : State) : State :=
  setIsLoggedIn (present "token" store) st.

(** [handleLogout]: the next state, the storage it leaves, and the path
    it navigates to. *)
Definition handleLogout (store : Storage) (st : State)
  : State * Storage * string :=
  (setIsLoggedIn false st,
   removeItem "user" (removeItem "token" store),
   "/").

End AdminNavbar.

(* ================================================================== *)
(** ** Vocabulary of the properties *)

Module Props.
Import Js Http Ui.

(** A value whose properties can be read without a throw: anything but null
    and undefined. *)
Definition readable (v : JsVal) : bool :=
  match v with
  | JUndefined | JNull => false
  | _ => true
  end.

(** [v.k] on a readable value. *)
Definition prop (v : JsVal) (k : string) : JsVal :=
  match get v k with
  | Ok x => x
  | Throw _ => JUndefined
  end.

(** The record carries the identifier [id]. *)
Definition has_id (id : string) (o : JsVal) : bool :=
  strict_eq_str (prop o "_id") id.

(** The identifiers of a collection, in order. *)
Definition ids (l : list JsVal) : list JsVal :=
  map (fun o => prop o "_id") l.

(** A payment method the pill can classify: absent (or otherwise falsy), or
    a string. *)
Definition payment_ok (pm : JsVal) : bool :=
  match pm with
  | JStr _ => true
  | _ => negb (truthy pm)
  end.

(** Line items that can be counted: absent, or an array of readable
    values. *)
Definition items_ok (items : JsVal) : bool :=
  match items with
  | JUndefined => true
  | JArr l => forallb readable l
  | _ => false
  end.

(** An order the table and the export can show. *)
Definition order_shape (o : JsVal) : bool :=
  readable o && payment_ok (prop o "paymentMethod")
  && items_ok (prop o "items").

(** An order whose line items can be counted. *)
Definition order_exportable (o : JsVal) : bool :=
  readable o && items_ok (prop o "items").

Definition is_data_row (r : Row) : bool :=
  match r with DataRow _ _ => true | _ => false end.

(** The four-way precedence of a table body [body], as a function of the
    records of the collection, the loading flag and the inline error.  The
    error counts as set when the page's own test [if (error)] passes, that
    is when it is truthy.  A data row is produced by [row]; [body] fails to
    render as a whole when [row] throws on a record, and [shown] is a
    sufficient condition for [row] not to throw. *)
Definition four_way_precedence (loading_text empty_text : string)
  (row : JsVal -> Result Row) (shown : JsVal -> bool)
  (body : list JsVal -> bool -> JsVal -> Result (list Row)) : Prop :=
  forall (l : list JsVal) (loading : bool) (error : JsVal),
    (loading = true ->
     body l loading error = Ok [LoadingRow loading_text]) /\
    (loading = false -> truthy error = true ->
     body l loading error = Ok [ErrorRow error]) /\
    (loading = false -> truthy error = false -> l <> [] ->
     (forall rows, body l loading error = Ok rows ->
        Forall2 (fun o r => row o = Ok r /\ is_data_row r = true) l rows) /\
     (forallb shown l = true ->
        exists rows, body l loading error = Ok rows /\
                     List.length rows = List.length l)) /\
    (loading = false -> truthy error = false -> l = [] ->
     body l loading error = Ok [EmptyRow empty_text]).

(** How a call [call] with generic failure text [fallback] classifies a
    response: success needs a status in the success range and a body that
    parses; outside the range the call fails, with the body's [message]
    when it is truthy and [fallback] otherwise (for a parsed body that is
    not null); a body that does not parse is a parse failure whatever the
    status. *)
Definition classifies_by_status_and_parse {A} (fallback : string)
  (call : FetchOutcome -> Result A) : Prop :=
  forall res : Response,
    (forall a, call (Resolved res) = Ok a ->
       ok res = true /\ exists body, parse res = Ok body) /\
    (ok res = false -> exists e, call (Resolved res) = Throw e) /\
    (ok res = false ->
     forall body, parse res = Ok body -> readable body = true ->
       call (Resolved res) =
       Throw (Error (if truthy (prop body "message")
                     then ToString (prop body "message")
                     else fallback))) /\
    (forall e, parse res = Throw e ->
       call (Resolved res) =
       Throw (Error "Invalid server response (not JSON).")).

(** The joint fetch of the admin panel, over the two responses
    [Promise.all] resolved to. *)
Definition fetchData_classifies : Prop :=
  forall orderRes contactRes : Response,
    let call := AdminPanel.fetchData_try (Ok (orderRes, contactRes)) in
    (forall v, call = Ok v ->
       (ok orderRes = true /\ exists body, parse orderRes = Ok body) /\
       (ok contactRes = true /\ exists body, parse contactRes = Ok body)) /\
    ((exists e, parse orderRes = Throw e) \/
     (exists e, parse contactRes = Throw e) ->
     call = Throw (Error "Invalid server response (not JSON).")) /\
    (forall ob cb, parse orderRes = Ok ob -> parse contactRes = Ok cb ->
       (ok orderRes = false ->
          (exists e, call = Throw e) /\
          (readable ob = true ->
           call = Throw (Error (if truthy (prop ob "message")
                                then ToString (prop ob "message")
                                else "Failed to fetch orders")))) /\
       (ok orderRes = true -> ok contactRes = false ->
          (exists e, call = Throw e) /\
          (readable cb = true ->
           call = Throw (Error (if truthy (prop cb "message")
                                then ToString (prop cb "message")
                                else "Failed to fetch contacts"))))).

(** The two calls of the menu page read the parsed body and never the
    status: they go by the body's [success] flag. *)
Definition menu_calls_go_by_success_flag : Prop :=
  (forall res s,
     ListItemsPage.fetchItems_try (Resolved res) =
     ListItemsPage.fetchItems_try
       (Resolved {| status := s; parse := parse res |})) /\
  (forall res e, parse res = Throw e ->
     ListItemsPage.fetchItems_try (Resolved res) = Throw e) /\
  (forall res body, parse res = Ok body -> readable body = true ->
     ListItemsPage.fetchItems_try (Resolved res) =
     Ok (if truthy (prop body "success") then Some (prop body "data")
         else None)) /\
  (forall id st res s,
     ListItemsPage.handleDelete_try id (Resolved res) st =
     ListItemsPage.handleDelete_try id
       (Resolved {| status := s; parse := parse res |}) st) /\
  (forall id st res e, parse res = Throw e ->
     ListItemsPage.handleDelete_try id (Resolved res) st = Throw e) /\
  (forall id st res body, parse res = Ok body -> readable body = true ->
     ListItemsPage.handleDelete_try id (Resolved res) st =
     if truthy (prop body "success")
     then v <- ListItemsPage.remove_id id (ListItemsPage.items st) ;;
          Ok (inl v)
     else Ok (inr (or (prop body "message")
                      (JStr "Failed to delete item")))).

Definition order_columns : list string :=
  ["ID"; "Name"; "Email"; "Phone"; "Address"; "City"; "ZipCode"; "Payment";
   "Status"; "TotalItems"; "TotalPrice"; "CreatedAt"].

Definition contact_columns : list string :=
  ["ID"; "Name"; "Email"; "Phone"; "Address"; "Dish"; "Message";
   "CreatedAt"].

(** The columns that copy one field of the record, with that field. *)
Definition order_copied : list (string * string) :=
  [("ID", "_id"); ("Email", "email"); ("Phone", "phone");
   ("Address", "address"); ("City", "city"); ("ZipCode", "zipCode");
   ("Payment", "paymentMethod"); ("Status", "status");
   ("TotalPrice", "totalPrice")].

Definition contact_copied : list (string * string) :=
  [("ID", "_id"); ("Name", "fullName"); ("Email", "emailAddress");
   ("Phone", "phoneNumber"); ("Address", "address"); ("Dish", "dishName");
   ("Message", "query")].

(** What one exported order looks like. *)
Definition order_sheet_row (o : JsVal) (r : SheetRow) : Prop :=
  columns r = order_columns /\
  Forall (fun cf => cell (fst cf) r = Some (Val (prop o (snd cf))))
         order_copied /\
  cell "Name" r =
    Some (Val (JStr (ToString (or (prop o "firstName") (JStr "")) ++ " "
                     ++ ToString (or (prop o "lastName") (JStr ""))))) /\
  (exists q, OrderManagement.totalQty (prop o "items") = Ok q /\
             cell "TotalItems" r = Some (Val q)) /\
  cell "CreatedAt" r =
    Some (if truthy (prop o "createdAt") then LocaleDate (prop o "createdAt")
          else Val (JStr "—")).

Definition contact_sheet_row (c : JsVal) (r : SheetRow) : Prop :=
  columns r = contact_columns /\
  Forall (fun cf => cell (fst cf) r = Some (Val (prop c (snd cf))))
         contact_copied /\
  cell "CreatedAt" r =
    Some (if truthy (prop c "createdAt") then LocaleDate (prop c "createdAt")
          else Val (JStr "—")).

End Props.

(* ================================================================== *)
(** ** Vocabulary of the further properties *)

Module MoreProps.
Import Js Http Ui Props.

(** The record as the status update leaves it. *)
Definition patched (id newStatus : string) (o : JsVal) : JsVal :=
  if has_id id o then OrderManagement.with_status newStatus o else o.



End MoreProps.

(* ================================================================== *)
(** ** Facts about the JavaScript fragment *)

Module JsFacts.
Import Js Props.

Lemma get_readable v k : readable v = true -> get v k = Ok (prop v k).
Proof.
  unfold prop; destruct v; simpl; intros H; try discriminate; reflexivity.
Qed.

Lemma get_unreadable v k : readable v = false -> exists e, get v k = Throw e.
Proof.
  destruct v; simpl; intros H; try discriminate; eexists; reflexivity.
Qed.

Lemma bind_ok {A B} (c : Result A) (k : A -> Result B) b :
  bind c k = Ok b -> exists a, c = Ok a /\ k a = Ok b.
Proof.
  destruct c as [a|e]; simpl; intros H; [eauto | discriminate].
Qed.

Section Traversals.
Context {A B : Type}.

Lemma mapM_Forall2 (f : A -> Result B) l l' :
  mapM f l = Ok l' -> Forall2 (fun x y => f x = Ok y) l l'.
Proof.
  revert l'; induction l as [|x r IH]; simpl; intros l' H.
  - injection H as <-. constructor.
  - apply bind_ok in H as (y & Hy & H).
    apply bind_ok in H as (ys & Hys & H).
    injection H as <-. constructor; auto.
Qed.

Lemma mapM_total (f : A -> Result B) l :
  Forall (fun x => exists y, f x = Ok y) l -> exists l', mapM f l = Ok l'.
Proof.
  induction 1 as [|x r (y & Hy) _ (ys & Hys)]; simpl.
  - eauto.
  - rewrite Hy, Hys. simpl. eauto.
Qed.

Lemma mapM_pure (f : A -> Result B) (g : A -> B) l :
  Forall (fun x => f x = Ok (g x)) l -> mapM f l = Ok (map g l).
Proof.
  induction 1 as [|x r Hx _ IH]; simpl; [reflexivity|].
  rewrite Hx, IH. reflexivity.
Qed.

Lemma filterM_pure (p : A -> Result bool) (q : A -> bool) l :
  Forall (fun x => p x = Ok (q x)) l -> filterM p l = Ok (filter q l).
Proof.
  induction 1 as [|x r Hx _ IH]; simpl; [reflexivity|].
  rewrite Hx, IH. reflexivity.
Qed.

End Traversals.

Lemma forallb_readable_Forall l :
  forallb readable l = true -> Forall (fun o => readable o = true) l.
Proof. intros H. apply Forall_forall. apply forallb_forall. exact H. Qed.

(** Property lists. *)

Lemma lookup_set_field_same k v fs : lookup k (set_field k v fs) = Some v.
Proof.
  induction fs as [|[k' v'] r IH]; simpl.
  - now rewrite String.eqb_refl.
  - destruct (k' =? k) eqn:E; simpl.
    + now rewrite String.eqb_refl.
    + now rewrite E.
Qed.

Lemma lookup_set_field_other k k0 v fs :
  k0 <> k -> lookup k0 (set_field k v fs) = lookup k0 fs.
Proof.
  intros Hne. induction fs as [|[k' v'] r IH]; simpl.
  - destruct (k =? k0) eqn:E; [|reflexivity].
    apply String.eqb_eq in E. congruence.
  - destruct (k' =? k) eqn:E; simpl.
    + apply String.eqb_eq in E. subst k'.
      destruct (k =? k0) eqn:E'; [|reflexivity].
      apply String.eqb_eq in E'. congruence.
    + now rewrite IH.
Qed.

(** Only an object carries an [_id] equal to a string. *)
Lemma has_id_object id o :
  has_id id o = true -> exists fs, o = JObj fs.
Proof.
  unfold has_id, prop. destruct o; simpl; try discriminate; eauto.
Qed.

(** Filtering keeps identifiers distinct. *)
Lemma NoDup_ids_filter (q : JsVal -> bool) l :
  NoDup (ids l) -> NoDup (ids (filter q l)).
Proof.
  unfold ids. induction l as [|x r IH]; simpl; intros H; [constructor|].
  inversion H as [|? ? Hnin Hr]; subst.
  destruct (q x); simpl; [|auto].
  constructor; [|auto].
  intros Hin. apply Hnin. apply in_map_iff in Hin as (y & Hy & Hin).
  apply in_map_iff. exists y. split; [exact Hy|].
  apply filter_In in Hin. tauto.
Qed.

End JsFacts.

(* ================================================================== *)
(** ** Which records the views can show *)

Module Shape.
Import Js Http Ui Props JsFacts.

Lemma foldM_qty_ok l : forall acc,
  forallb readable l = true ->
  exists q,
    foldM (fun n i => q <- get i "quantity" ;;
                      Ok (plus n (or q (JNum 0)))) acc l = Ok q.
Proof.
  induction l as [|i r IH]; simpl; intros acc H.
  - eauto.
  - apply andb_prop in H as [Hi Hr].
    rewrite (get_readable i "quantity" Hi). simpl. apply IH, Hr.
Qed.

Lemma totalQty_ok items :
  items_ok items = true -> exists q, OrderManagement.totalQty items = Ok q.
Proof.
  unfold OrderManagement.totalQty.
  destruct items; simpl; try discriminate.
  - intros _. eauto.
  - intros H. apply foldM_qty_ok, H.
Qed.

Lemma getPaymentPill_ok pm :
  payment_ok pm = true -> exists p, OrderManagement.getPaymentPill pm = Ok p.
Proof.
  unfold OrderManagement.getPaymentPill, or.
  destruct pm; simpl; try discriminate; intros H.
  1-2, 4: repeat match goal with
            | |- context [if ?c then _ else _] => destruct c
            end; eauto.
  - destruct b; [discriminate|]. simpl.
    repeat match goal with
           | |- context [if ?c then _ else _] => destruct c
           end; eauto.
  - destruct (n =? 0)%Z; [|discriminate]. simpl.
    repeat match goal with
           | |- context [if ?c then _ else _] => destruct c
           end; eauto.
  - destruct (negb (s =? "")); simpl;
    repeat match goal with
           | |- context [if ?c then _ else _] => destruct c
           end; eauto.
Qed.

Lemma order_row_ok o :
  order_shape o = true ->
  exists key cells, OrderManagement.order_row o = Ok (DataRow key cells).
Proof.
  unfold order_shape. intros H.
  apply andb_prop in H as [H Hitems]. apply andb_prop in H as [Hr Hpm].
  unfold OrderManagement.order_row.
  rewrite !(get_readable o _ Hr). cbn [bind].
  destruct (getPaymentPill_ok _ Hpm) as (p & ->). cbn [bind].
  destruct (totalQty_ok _ Hitems) as (q & ->). cbn [bind].
  eauto.
Qed.

Lemma order_row_data o r :
  OrderManagement.order_row o = Ok r -> is_data_row r = true.
Proof.
  unfold OrderManagement.order_row. intros H.
  repeat (apply bind_ok in H as (? & _ & H)).
  injection H as <-. reflexivity.
Qed.

Lemma contact_row_ok c :
  readable c = true ->
  exists key cells, ContactManagement.contact_row c = Ok (DataRow key cells).
Proof.
  intros Hr. unfold ContactManagement.contact_row.
  rewrite !(get_readable c _ Hr). cbn [bind]. eauto.
Qed.

Lemma contact_row_data c r :
  ContactManagement.contact_row c = Ok r -> is_data_row r = true.
Proof.
  unfold ContactManagement.contact_row. intros H.
  repeat (apply bind_ok in H as (? & _ & H)).
  injection H as <-. reflexivity.
Qed.

Lemma format_order_ok o :
  readable o = true -> items_ok (prop o "items") = true ->
  exists r, OrderManagement.format_order o = Ok r.
Proof.
  intros Hr Hitems. unfold OrderManagement.format_order.
  rewrite !(get_readable o _ Hr). cbn [bind].
  destruct (totalQty_ok _ Hitems) as (q & ->). cbn [bind]. eauto.
Qed.

Lemma format_contact_ok c :
  readable c = true -> exists r, ContactManagement.format_contact c = Ok r.
Proof.
  intros Hr. unfold ContactManagement.format_contact.
  rewrite !(get_readable c _ Hr). cbn [bind]. eauto.
Qed.

End Shape.

(* ================================================================== *)
(** ** Properties of the pages *)

Import Js Http Ui Props JsFacts Shape.

(** *** Table body *)

Lemma length_truthy (l : list JsVal) :
  truthy (JNum (Z.of_nat (List.length l))) =
  match l with [] => false | _ :: _ => true end.
Proof. destruct l; reflexivity. Qed.

Lemma rows_of_records (row : JsVal -> Result Row) (shown : JsVal -> bool)
  (l : list JsVal) :
  (forall o r, row o = Ok r -> is_data_row r = true) ->
  (forall o, shown o = true -> exists r, row o = Ok r) ->
  (forall rows, mapM row l = Ok rows ->
     Forall2 (fun o r => row o = Ok r /\ is_data_row r = true) l rows) /\
  (forallb shown l = true ->
     exists rows, mapM row l = Ok rows /\
                  List.length rows = List.length l).
Proof.
  intros Hdata Hshown. split.
  - intros rows H. apply mapM_Forall2 in H.
    induction H; constructor; eauto.
  - intros H.
    destruct (mapM_total row l) as (rows & Hrows).
    { apply Forall_forall. intros o Ho. apply Hshown.
      rewrite forallb_forall in H. auto. }
    exists rows. split; [exact Hrows|].
    apply mapM_Forall2, Forall2_length in Hrows. auto.
Qed.

Lemma orderContent_cases l loading error :
  OrderManagement.orderContent
    (OrderManagement.mkState (JArr l) loading error) =
  if loading then Ok [LoadingRow "Loading orders…"]
  else if truthy error then Ok [ErrorRow error]
  else match l with
       | [] => Ok [EmptyRow "No orders found"]
       | _ :: _ => mapM OrderManagement.order_row l
       end.
Proof.
  unfold OrderManagement.orderContent; cbn -[mapM truthy].
  rewrite length_truthy. destruct l; reflexivity.
Qed.

Lemma tableBody_cases l loading error :
  ContactManagement.tableBody
    (ContactManagement.mkState (JArr l) loading error) =
  if loading then Ok [LoadingRow "Loading contacts…"]
  else if truthy error then Ok [ErrorRow error]
  else match l with
       | [] => Ok [EmptyRow "No contact messages found"]
       | _ :: _ => mapM ContactManagement.contact_row l
       end.
Proof.
  unfold ContactManagement.tableBody; cbn -[mapM truthy].
  rewrite length_truthy. destruct l; reflexivity.
Qed.

Lemma panel_orderContent_cases l contacts loading error :
  AdminPanel.orderContent
    (AdminPanel.mkState (JArr l) contacts loading error) =
  if loading then Ok [LoadingRow "Loading orders…"]
  else if truthy error then Ok [ErrorRow error]
  else match l with
       | [] => Ok [EmptyRow "No orders found"]
       | _ :: _ => mapM OrderManagement.order_row l
       end.
Proof.
  unfold AdminPanel.orderContent; cbn -[mapM truthy].
  rewrite length_truthy. destruct l; reflexivity.
Qed.

(** C1.  On the orders page and on the contacts page the table body is a
    function of (collection, loading, error) alone, with four-way
    precedence: a single loading row when loading; else a single error row
    when the error is set; else, for a non-empty collection, one data row
    per record, in order, and no other row; else a single empty-state row.
    So loading hides a stale error, and a non-empty collection never shows
    the empty-state row.  The orders table of the admin panel, which
    repeats the text of the orders page, behaves the same. *)
Theorem table_body_four_way_precedence :
  four_way_precedence "Loading orders…" "No orders found"
    OrderManagement.order_row order_shape
    (fun l loading error =>
       OrderManagement.orderContent
         (OrderManagement.mkState (JArr l) loading error))
  /\
  four_way_precedence "Loading contacts…" "No contact messages found"
    ContactManagement.contact_row readable
    (fun l loading error =>
       ContactManagement.tableBody
         (ContactManagement.mkState (JArr l) loading error))
  /\
  (forall contacts,
     four_way_precedence "Loading orders…" "No orders found"
       OrderManagement.order_row order_shape
       (fun l loading error =>
          AdminPanel.orderContent
            (AdminPanel.mkState (JArr l) contacts loading error))).
Proof.
  split; [|split; [|intros contacts]]; intros l loading error.
  - rewrite orderContent_cases.
    split; [intros ->; reflexivity|].
    split; [intros -> ->; reflexivity|].
    split; [|intros -> -> ->; reflexivity].
    intros -> -> Hne. destruct l as [|o r]; [congruence|].
    apply (rows_of_records _ order_shape).
    + apply order_row_data.
    + intros x Hx. destruct (order_row_ok x Hx) as (k & cs & E). eauto.
  - rewrite tableBody_cases.
    split; [intros ->; reflexivity|].
    split; [intros -> ->; reflexivity|].
    split; [|intros -> -> ->; reflexivity].
    intros -> -> Hne. destruct l as [|o r]; [congruence|].
    apply (rows_of_records _ readable).
    + apply contact_row_data.
    + intros x Hx. destruct (contact_row_ok x Hx) as (k & cs & E). eauto.
  - rewrite panel_orderContent_cases.
    split; [intros ->; reflexivity|].
    split; [intros -> ->; reflexivity|].
    split; [|intros -> -> ->; reflexivity].
    intros -> -> Hne. destruct l as [|o r]; [congruence|].
    apply (rows_of_records _ order_shape).
    + apply order_row_data.
    + intros x Hx. destruct (order_row_ok x Hx) as (k & cs & E). eauto.
Qed.

(** The contacts table of the admin panel is derived from the collection
    alone: it has no loading row and no error row. *)
Lemma panel_contacts_table_ignores_loading_and_error orders l loading error :
  AdminPanel.contactContent
    (AdminPanel.mkState orders (JArr l) loading error) =
  match l with
  | [] => Ok [EmptyRow "No contact messages found"]
  | _ :: _ => mapM ContactManagement.contact_row l
  end.
Proof.
  unfold AdminPanel.contactContent; cbn -[mapM truthy].
  rewrite length_truthy. destruct l; reflexivity.
Qed.

Lemma table_body_four_way_precedence_witness :
  let o1 := JObj [("_id", JStr "o1"); ("status", JStr "pending")] in
  let o2 := JObj [("_id", JStr "o2"); ("paymentMethod", JStr "COD")] in
  OrderManagement.orderContent
    (OrderManagement.mkState (JArr [o1; o2]) true (JStr "stale")) =
  Ok [LoadingRow "Loading orders…"]
  /\ exists rows,
       OrderManagement.orderContent
         (OrderManagement.mkState (JArr [o1; o2]) false JNull) = Ok rows
       /\ List.length rows = 2%nat.
Proof.
  intros o1 o2.
  destruct table_body_four_way_precedence as [Horders _].
  split.
  - apply (Horders [o1; o2] true (JStr "stale")). reflexivity.
  - apply (Horders [o1; o2] false JNull);
      [reflexivity | reflexivity | discriminate | reflexivity].
Defined.

(** *** Gateway calls *)

Lemma or_message body fallback :
  ToString (or (prop body "message") (JStr fallback)) =
  if truthy (prop body "message") then ToString (prop body "message")
  else fallback.
Proof. unfold or. destruct (truthy (prop body "message")); reflexivity. Qed.

Ltac classify call_unfold :=
  let res := fresh "res" in
  intros res; call_unfold; cbn [await bind];
  destruct (parse res) as [?body|?e] eqn:?Hp; destruct (ok res) eqn:?Hok;
  cbn [bind negb];
  repeat split; intros; try discriminate; eauto;
  try match goal with H : Ok _ = Ok _ |- _ => injection H as H; subst end;
  try match goal with
      | H : readable ?b = true |- _ =>
          rewrite !(get_readable b _ H); cbn [bind];
          rewrite or_message; reflexivity
      end;
  try (destruct (get _ "message"); simpl in *; (discriminate || eauto)).

Lemma fetchOrders_classifies :
  classifies_by_status_and_parse "Failed to fetch orders"
    OrderManagement.fetchOrders_try.
Proof.
  classify ltac:(unfold OrderManagement.fetchOrders_try,
                        OrderManagement.parseJsonSafely).
Qed.

Lemma updateStatus_classifies :
  classifies_by_status_and_parse "Failed to update order"
    OrderManagement.updateStatus_try.
Proof.
  classify ltac:(unfold OrderManagement.updateStatus_try,
                        OrderManagement.not_ok_or_not_success,
                        OrderManagement.parseJsonSafely).
Qed.

Lemma deleteOrder_classifies :
  classifies_by_status_and_parse "Failed to delete order"
    OrderManagement.deleteOrder_try.
Proof.
  classify ltac:(unfold OrderManagement.deleteOrder_try,
                        OrderManagement.not_ok_or_not_success,
                        OrderManagement.parseJsonSafely).
Qed.

Lemma fetchContacts_classifies :
  classifies_by_status_and_parse "Failed to fetch contacts"
    ContactManagement.fetchContacts_try.
Proof.
  classify ltac:(unfold ContactManagement.fetchContacts_try,
                        ContactManagement.parseJsonSafely).
Qed.

Lemma deleteContact_classifies :
  classifies_by_status_and_parse "Failed to delete contact"
    ContactManagement.deleteContact_try.
Proof.
  classify ltac:(unfold ContactManagement.deleteContact_try,
                        ContactManagement.parseJsonSafely).
Qed.

Lemma fetchData_classifies_holds : fetchData_classifies.
Proof.
  intros orderRes contactRes call. subst call.
  unfold AdminPanel.fetchData_try, AdminPanel.parseJsonSafely.
  cbn [bind].
  split; [|split].
  - intros v.
    destruct (parse orderRes) as [ob|eo]; [|discriminate].
    destruct (parse contactRes) as [cb|ec]; [|discriminate].
    cbn [bind].
    destruct (ok orderRes); cbn [bind negb].
    + destruct (ok contactRes); cbn [bind negb]; [eauto 6|].
      destruct (get cb "message"); discriminate.
    + destruct (get ob "message"); discriminate.
  - intros [(e & ->)|(e & ->)]; [reflexivity|].
    destruct (parse orderRes); reflexivity.
  - intros ob cb -> ->. cbn [bind]. split.
    + intros ->. cbn [bind negb]. split.
      * destruct (get ob "message"); simpl; eauto.
      * intros Hr. rewrite (get_readable _ _ Hr). cbn [bind].
        now rewrite or_message.
    + intros -> ->. cbn [bind negb]. split.
      * destruct (get cb "message"); simpl; eauto.
      * intros Hr. rewrite (get_readable _ _ Hr). cbn [bind].
        now rewrite or_message.
Qed.

Lemma menu_calls_go_by_success_flag_holds : menu_calls_go_by_success_flag.
Proof.
  unfold menu_calls_go_by_success_flag,
    ListItemsPage.fetchItems_try, ListItemsPage.handleDelete_try, json.
  cbn [await bind parse].
  repeat split.
  - intros res e ->. reflexivity.
  - intros res b -> Hr. cbn [bind]. rewrite !(get_readable _ _ Hr).
    cbn [bind]. destruct (truthy (prop b "success")); reflexivity.
  - intros id st res e ->. reflexivity.
  - intros id st res b -> Hr. cbn [bind]. rewrite !(get_readable _ _ Hr).
    cbn [bind]. destruct (truthy (prop b "success")); reflexivity.
Qed.

(** C2, as amended.  Every gateway call of the orders page, of the contacts
    page and of the admin panel is reported successful only when the status
    is in the success range and the body parses; outside the range it
    fails even when the body parses, with the body's [message] when that is
    truthy and the operation's generic text otherwise (body other than
    null); a body that does not parse is a parse failure whatever the
    status.  The two calls of the menu page do not look at the status: they
    need the body to parse and then go by its [success] flag. *)
Theorem gateway_calls_classification :
  classifies_by_status_and_parse "Failed to fetch orders"
    OrderManagement.fetchOrders_try /\
  classifies_by_status_and_parse "Failed to update order"
    OrderManagement.updateStatus_try /\
  classifies_by_status_and_parse "Failed to delete order"
    OrderManagement.deleteOrder_try /\
  classifies_by_status_and_parse "Failed to fetch contacts"
    ContactManagement.fetchContacts_try /\
  classifies_by_status_and_parse "Failed to delete contact"
    ContactManagement.deleteContact_try /\
  fetchData_classifies /\
  menu_calls_go_by_success_flag.
Proof.
  split; [apply fetchOrders_classifies|].
  split; [apply updateStatus_classifies|].
  split; [apply deleteOrder_classifies|].
  split; [apply fetchContacts_classifies|].
  split; [apply deleteContact_classifies|].
  split; [apply fetchData_classifies_holds|].
  apply menu_calls_go_by_success_flag_holds.
Qed.

(** C2 as stated fails on the menu page: a response with status 500 whose
    body parses and carries a truthy [success] is handled as a success, the
    collection is replaced and nothing is reported. *)
Lemma menu_fetch_succeeds_on_status_500 :
  let item := JObj [("_id", JStr "m1"); ("name", JStr "Margherita")] in
  let res := {| status := 500;
                parse := Ok (JObj [("success", JBool true);
                                   ("data", JArr [item])]) |} in
  ok res = false /\
  ListItemsPage.fetchItems (Resolved res) ListItemsPage.init =
  {| next := Ok {| ListItemsPage.items := JArr [item];
                   ListItemsPage.loading := false |};
     trace := [Fetch ListItemsPage.list_request] |}.
Proof. split; reflexivity. Qed.

Lemma gateway_calls_classification_witness :
  let res := {| status := 404;
                parse := Ok (JObj [("success", JBool false);
                                   ("message", JStr "Order not found")]) |} in
  OrderManagement.deleteOrder_try (Resolved res) =
  Throw (Error "Order not found").
Proof.
  intros res.
  destruct gateway_calls_classification as (_ & _ & Hdel & _).
  destruct (Hdel res) as (_ & _ & Hmsg & _).
  apply (Hmsg eq_refl _ eq_refl eq_refl).
Defined.

(** *** Reconciling the collection after a list fetch *)

Section ListFetch.

Variable base : option string.
Variable token : option string.

Lemma fetchContacts_bare_array res st l :
  ok res = true -> parse res = Ok (JArr l) ->
  next (ContactManagement.fetchContacts base (Resolved res) st) =
  Ok (ContactManagement.mkState (JArr l) false JNull).
Proof.
  intros Hok Hp.
  unfold ContactManagement.fetchContacts,
    ContactManagement.fetchContacts_try, ContactManagement.parseJsonSafely.
  cbn [await bind]. rewrite Hp, Hok. reflexivity.
Qed.

Lemma fetchContacts_envelope res st fs l :
  ok res = true -> parse res = Ok (JObj fs) ->
  lookup "data" fs = Some (JArr l) ->
  next (ContactManagement.fetchContacts base (Resolved res) st) =
  Ok (ContactManagement.mkState (JArr l) false JNull).
Proof.
  intros Hok Hp Hd.
  unfold ContactManagement.fetchContacts,
    ContactManagement.fetchContacts_try, ContactManagement.parseJsonSafely.
  cbn [await bind]. rewrite Hp, Hok. cbn. rewrite Hd. reflexivity.
Qed.

Lemma fetchOrders_envelope res st fs l :
  ok res = true -> parse res = Ok (JObj fs) ->
  lookup "data" fs = Some (JArr l) ->
  next (OrderManagement.fetchOrders base token (Resolved res) st) =
  Ok (OrderManagement.mkState (JArr l) false JNull).
Proof.
  intros Hok Hp Hd.
  unfold OrderManagement.fetchOrders,
    OrderManagement.fetchOrders_try, OrderManagement.parseJsonSafely.
  cbn [await bind]. rewrite Hp, Hok. cbn. rewrite Hd. reflexivity.
Qed.

Lemma fetchOrders_bare_array res st l :
  ok res = true -> parse res = Ok (JArr l) ->
  next (OrderManagement.fetchOrders base token (Resolved res) st) =
  Ok (OrderManagement.mkState (JArr []) false JNull).
Proof.
  intros Hok Hp.
  unfold OrderManagement.fetchOrders,
    OrderManagement.fetchOrders_try, OrderManagement.parseJsonSafely.
  cbn [await bind]. rewrite Hp, Hok. reflexivity.
Qed.

Lemma fetchData_envelope_and_array orderRes contactRes st fs lo lc :
  ok orderRes = true -> parse orderRes = Ok (JObj fs) ->
  lookup "data" fs = Some (JArr lo) ->
  ok contactRes = true -> parse contactRes = Ok (JArr lc) ->
  next (AdminPanel.fetchData base token (Ok (orderRes, contactRes)) st) =
  Ok (AdminPanel.mkState (JArr lo) (JArr lc) false JNull).
Proof.
  intros Hoo Hpo Hd Hoc Hpc.
  unfold AdminPanel.fetchData, AdminPanel.fetchData_try,
    AdminPanel.parseJsonSafely.
  cbn [bind]. rewrite Hpo, Hpc, Hoo, Hoc. cbn. rewrite Hd. reflexivity.
Qed.

(** An object body whose [data] is missing, null or otherwise falsy. *)
Lemma fetchOrders_no_data res st fs :
  ok res = true -> parse res = Ok (JObj fs) ->
  truthy (prop (JObj fs) "data") = false ->
  next (OrderManagement.fetchOrders base token (Resolved res) st) =
  Ok (OrderManagement.mkState (JArr []) false JNull).
Proof.
  intros Hok Hp Hd.
  unfold OrderManagement.fetchOrders,
    OrderManagement.fetchOrders_try, OrderManagement.parseJsonSafely.
  cbn [await bind]. rewrite Hp, Hok. cbn [negb bind].
  rewrite (get_readable (JObj fs) "data" eq_refl). cbn [bind].
  unfold or. rewrite Hd. reflexivity.
Qed.

Lemma fetchData_no_data orderRes contactRes st fs cb :
  ok orderRes = true -> parse orderRes = Ok (JObj fs) ->
  truthy (prop (JObj fs) "data") = false ->
  ok contactRes = true -> parse contactRes = Ok cb ->
  next (AdminPanel.fetchData base token (Ok (orderRes, contactRes)) st) =
  Ok (AdminPanel.mkState (JArr []) (or cb (JArr [])) false JNull).
Proof.
  intros Hoo Hpo Hd Hoc Hpc.
  unfold AdminPanel.fetchData, AdminPanel.fetchData_try,
    AdminPanel.parseJsonSafely.
  cbn [bind]. rewrite Hpo, Hpc, Hoo, Hoc. cbn [negb bind].
  rewrite (get_readable (JObj fs) "data" eq_refl). cbn [bind].
  unfold or. rewrite Hd. reflexivity.
Qed.

End ListFetch.

(** C3, as amended.  After a successful list fetch the collection is the
    server's array, whatever it was before, and loading is false (the error
    stays cleared).  The contacts page takes a bare array body or the
    [data] array of an envelope object; the orders fetch, on the orders
    page and in the admin panel, takes the [data] array of an envelope
    only, and a bare array body leaves the orders page with the empty
    collection; the admin panel takes its contacts from a bare array, when
    both of its responses succeed. *)
Theorem list_fetch_replaces_collection :
  forall (base token : option string) (res : Response) (l : list JsVal),
    ok res = true ->
    (forall st,
       parse res = Ok (JArr l) ->
       next (ContactManagement.fetchContacts base (Resolved res) st) =
       Ok (ContactManagement.mkState (JArr l) false JNull)) /\
    (forall st fs,
       parse res = Ok (JObj fs) -> lookup "data" fs = Some (JArr l) ->
       next (ContactManagement.fetchContacts base (Resolved res) st) =
       Ok (ContactManagement.mkState (JArr l) false JNull)) /\
    (forall st fs,
       parse res = Ok (JObj fs) -> lookup "data" fs = Some (JArr l) ->
       next (OrderManagement.fetchOrders base token (Resolved res) st) =
       Ok (OrderManagement.mkState (JArr l) false JNull)) /\
    (forall st,
       parse res = Ok (JArr l) ->
       next (OrderManagement.fetchOrders base token (Resolved res) st) =
       Ok (OrderManagement.mkState (JArr []) false JNull)) /\
    (forall st fs contactRes lc,
       parse res = Ok (JObj fs) -> lookup "data" fs = Some (JArr l) ->
       ok contactRes = true -> parse contactRes = Ok (JArr lc) ->
       next (AdminPanel.fetchData base token (Ok (res, contactRes)) st) =
       Ok (AdminPanel.mkState (JArr l) (JArr lc) false JNull)).
Proof.
  intros base token res l Hok. repeat split; intros.
  - now apply fetchContacts_bare_array.
  - now apply fetchContacts_envelope with (fs := fs).
  - now apply fetchOrders_envelope with (fs := fs).
  - now apply fetchOrders_bare_array with (l := l).
  - now apply fetchData_envelope_and_array with (fs := fs).
Qed.

Lemma list_fetch_replaces_collection_witness :
  let c := JObj [("_id", JStr "c1"); ("fullName", JStr "Ada")] in
  let res := {| status := 200; parse := Ok (JArr [c]) |} in
  next (ContactManagement.fetchContacts None (Resolved res)
          ContactManagement.init) =
  Ok (ContactManagement.mkState (JArr [c]) false JNull).
Proof.
  intros c res.
  apply (list_fetch_replaces_collection None None res [c] eq_refl).
  reflexivity.
Defined.

(** C3 as stated fails for the orders fetch: a bare array body with a
    success status is not taken as the collection. *)
Lemma orders_fetch_drops_bare_array :
  let o := JObj [("_id", JStr "o1"); ("status", JStr "pending")] in
  let res := {| status := 200; parse := Ok (JArr [o]) |} in
  ok res = true /\
  OrderManagement.fetchOrders None None (Resolved res) OrderManagement.init =
  {| next := Ok (OrderManagement.mkState (JArr []) false JNull);
     trace := [Fetch (OrderManagement.list_request None None)] |}.
Proof. split; reflexivity. Qed.

(** C10, as amended.  When the orders response has a success status and
    parses as an object whose [data] is missing, null or otherwise falsy,
    the orders page sets the collection to the empty list, whatever was
    loaded before, sets no error, and its table shows the empty-state row;
    the admin panel does the same provided the contacts response fetched
    alongside also has a success status and parses. *)
Theorem orders_fetch_without_data_gives_empty :
  forall (base token : option string) (res : Response)
         (fs : list (string * JsVal)),
    ok res = true -> parse res = Ok (JObj fs) ->
    truthy (prop (JObj fs) "data") = false ->
    (forall st,
       exists st',
         next (OrderManagement.fetchOrders base token (Resolved res) st) =
         Ok st' /\
         OrderManagement.orders st' = JArr [] /\
         OrderManagement.error st' = JNull /\
         OrderManagement.orderContent st' = Ok [EmptyRow "No orders found"])
    /\
    (forall st contactRes cb,
       ok contactRes = true -> parse contactRes = Ok cb ->
       exists st',
         next (AdminPanel.fetchData base token (Ok (res, contactRes)) st) =
         Ok st' /\
         AdminPanel.orders st' = JArr [] /\
         AdminPanel.error st' = JNull /\
         AdminPanel.orderContent st' = Ok [EmptyRow "No orders found"]).
Proof.
  intros base token res fs Hok Hp Hd. split.
  - intros st. eexists. split.
    + apply fetchOrders_no_data with (fs := fs); assumption.
    + repeat split.
  - intros st contactRes cb Hoc Hpc. eexists. split.
    + apply fetchData_no_data with (fs := fs); eassumption.
    + repeat split.
Qed.

Lemma orders_fetch_without_data_gives_empty_witness :
  let old := JObj [("_id", JStr "o1")] in
  let res := {| status := 200;
                parse := Ok (JObj [("success", JBool true);
                                   ("data", JNull)]) |} in
  exists st',
    next (OrderManagement.fetchOrders None (Some "t0k3n") (Resolved res)
            (OrderManagement.mkState (JArr [old]) false JNull)) = Ok st' /\
    OrderManagement.orders st' = JArr [] /\
    OrderManagement.error st' = JNull /\
    OrderManagement.orderContent st' = Ok [EmptyRow "No orders found"].
Proof.
  intros old res.
  apply (orders_fetch_without_data_gives_empty None (Some "t0k3n") res
           [("success", JBool true); ("data", JNull)]
           eq_refl eq_refl eq_refl).
Defined.

(** C10 as stated fails in the admin panel: the orders response is a
    success without [data], the contacts response fetched with it is not,
    and the panel keeps the loaded orders and shows an error. *)
Lemma panel_orders_kept_when_contacts_fail :
  let old := JObj [("_id", JStr "o1")] in
  let orderRes := {| status := 200; parse := Ok (JObj []) |} in
  let contactRes := {| status := 500; parse := Ok (JObj []) |} in
  let st := AdminPanel.mkState (JArr [old]) (JArr []) false JNull in
  ok orderRes = true /\
  next (AdminPanel.fetchData None None (Ok (orderRes, contactRes)) st) =
  Ok (AdminPanel.mkState (JArr [old]) (JArr []) false
        (JStr "Failed to fetch contacts")) /\
  AdminPanel.orderContent
    (AdminPanel.mkState (JArr [old]) (JArr []) false
       (JStr "Failed to fetch contacts")) =
  Ok [ErrorRow (JStr "Failed to fetch contacts")].
Proof. repeat split. Qed.

(** *** Local mutations *)

(** The three [filter] updaters are the same text; on readable records they
    are a plain filter. *)
Lemma filterM_by_id id l :
  forallb readable l = true ->
  filterM (fun o => i <- get o "_id" ;; Ok (negb (strict_eq_str i id))) l =
  Ok (filter (fun o => negb (has_id id o)) l).
Proof.
  intros H. apply filterM_pure.
  apply forallb_readable_Forall in H.
  eapply Forall_impl; [|exact H]. cbv beta. intros o Ho.
  rewrite (get_readable o "_id" Ho). reflexivity.
Qed.

Lemma order_remove_id_filter id l :
  forallb readable l = true ->
  OrderManagement.remove_id id (JArr l) =
  Ok (JArr (filter (fun o => negb (has_id id o)) l)).
Proof.
  intros H. unfold OrderManagement.remove_id. cbn [array_method bind].
  rewrite (filterM_by_id id l H). reflexivity.
Qed.

Lemma contact_remove_id_filter id l :
  forallb readable l = true ->
  ContactManagement.remove_id id (JArr l) =
  Ok (JArr (filter (fun o => negb (has_id id o)) l)).
Proof.
  intros H. unfold ContactManagement.remove_id. cbn [array_method bind].
  rewrite (filterM_by_id id l H). reflexivity.
Qed.

Lemma patch_status_map id newStatus l :
  forallb readable l = true ->
  OrderManagement.patch_status id newStatus (JArr l) =
  Ok (JArr (map (fun o => if has_id id o
                          then OrderManagement.with_status newStatus o
                          else o) l)).
Proof.
  intros H. unfold OrderManagement.patch_status. cbn [array_method bind].
  rewrite (mapM_pure _ (fun o => if has_id id o
                                 then OrderManagement.with_status newStatus o
                                 else o)); [reflexivity|].
  apply forallb_readable_Forall in H.
  eapply Forall_impl; [|exact H]. cbv beta. intros o Ho.
  rewrite (get_readable o "_id" Ho). reflexivity.
Qed.

Lemma with_status_props id newStatus o :
  has_id id o = true ->
  prop (OrderManagement.with_status newStatus o) "status" = JStr newStatus /\
  forall k, k <> "status" ->
    prop (OrderManagement.with_status newStatus o) k = prop o k.
Proof.
  intros H. destruct (has_id_object id o H) as (fs & ->).
  unfold prop; cbn [OrderManagement.with_status get]. split.
  - now rewrite lookup_set_field_same.
  - intros k Hk. now rewrite lookup_set_field_other.
Qed.

Lemma ids_patch_status id newStatus l :
  ids (map (fun o => if has_id id o
                     then OrderManagement.with_status newStatus o
                     else o) l) = ids l.
Proof.
  unfold ids. rewrite map_map. apply map_ext. intros o.
  destruct (has_id id o) eqn:E; [|reflexivity].
  apply (with_status_props id newStatus o E). discriminate.
Qed.

Lemma remaining_lack_id id l :
  Forall (fun o => has_id id o = false)
         (filter (fun o => negb (has_id id o)) l).
Proof.
  apply Forall_forall. intros o Ho. apply filter_In in Ho as [_ Ho].
  now apply negb_true_iff in Ho.
Qed.

Lemma one_removed id (l : list JsVal) :
  List.length (filter (has_id id) l) = 1%nat ->
  S (List.length (filter (fun o => negb (has_id id o)) l)) = List.length l.
Proof.
  intros H. pose proof (filter_length (has_id id) l) as E. lia.
Qed.

(** C4.  On the orders page and on the contacts page: when the collection
    holds exactly one record with identifier [id] and the gateway reports
    the delete as successful, the collection loses exactly one record and
    none with that identifier remains, the rest of the state being
    untouched.  A confirmed delete always sends its request, whether or not
    the collection holds the identifier, and when the server answers with a
    failure the handler reports it and leaves the state as it was. *)
Theorem delete_success_removes_exactly_one :
  forall (base token : option string) (id : string)
         (settled : FetchOutcome) (l : list JsVal),
    (forallb readable l = true ->
     List.length (filter (has_id id) l) = 1%nat ->
     (forall loading error,
        OrderManagement.deleteOrder_try settled = Ok tt ->
        exists l',
          next (OrderManagement.deleteOrder base token id true settled
                  (OrderManagement.mkState (JArr l) loading error)) =
          Ok (OrderManagement.mkState (JArr l') loading error) /\
          S (List.length l') = List.length l /\
          Forall (fun o => has_id id o = false) l') /\
     (forall loading error,
        ContactManagement.deleteContact_try settled = Ok tt ->
        exists l',
          next (ContactManagement.deleteContact base id true settled
                  (ContactManagement.mkState (JArr l) loading error)) =
          Ok (ContactManagement.mkState (JArr l') loading error) /\
          S (List.length l') = List.length l /\
          Forall (fun o => has_id id o = false) l')) /\
    (forall st,
       (exists rest,
          trace (OrderManagement.deleteOrder base token id true settled st) =
          Confirm "Delete this order?" true
          :: Fetch (OrderManagement.delete_request base token id) :: rest) /\
       (forall err,
          OrderManagement.deleteOrder_try settled = Throw err ->
          OrderManagement.deleteOrder base token id true settled st =
          {| next := Ok st;
             trace := [Confirm "Delete this order?" true;
                       Fetch (OrderManagement.delete_request base token id);
                       ConsoleError "Delete Error:" err;
                       Alert ("Error deleting order: " ++ message err)] |})).
Proof.
  intros base token id settled l. split.
  - intros Hr Hone. split; intros loading error Hok.
    + exists (filter (fun o => negb (has_id id o)) l).
      unfold OrderManagement.deleteOrder. cbn [negb]. rewrite Hok.
      cbn [next]. unfold OrderManagement.updateOrders.
      cbn [OrderManagement.orders].
      rewrite (order_remove_id_filter id l Hr). cbn [bind].
      split; [reflexivity|].
      split; [apply one_removed, Hone | apply remaining_lack_id].
    + exists (filter (fun o => negb (has_id id o)) l).
      unfold ContactManagement.deleteContact. cbn [negb]. rewrite Hok.
      cbn [next]. unfold ContactManagement.updateContacts.
      cbn [ContactManagement.contacts].
      rewrite (contact_remove_id_filter id l Hr). cbn [bind].
      split; [reflexivity|].
      split; [apply one_removed, Hone | apply remaining_lack_id].
  - intros st. unfold OrderManagement.deleteOrder. cbn [negb]. split.
    + destruct (OrderManagement.deleteOrder_try settled);
        cbn [trace]; eauto.
    + intros err ->. reflexivity.
Qed.

Lemma delete_success_removes_exactly_one_witness :
  let o1 := JObj [("_id", JStr "o1"); ("status", JStr "pending")] in
  let o2 := JObj [("_id", JStr "o2"); ("status", JStr "delivered")] in
  let settled := Resolved {| status := 200;
                             parse := Ok (JObj [("success", JBool true)]) |} in
  exists l',
    next (OrderManagement.deleteOrder None (Some "t0k3n") "o1" true settled
            (OrderManagement.mkState (JArr [o1; o2]) false JNull)) =
    Ok (OrderManagement.mkState (JArr l') false JNull) /\
    S (List.length l') = 2%nat /\
    Forall (fun o => has_id "o1" o = false) l'.
Proof.
  intros o1 o2 settled.
  destruct (delete_success_removes_exactly_one None (Some "t0k3n") "o1"
              settled [o1; o2]) as [H _].
  destruct (H eq_refl eq_refl) as [Horders _].
  apply (Horders false JNull eq_refl).
Defined.

(** C5.  When the gateway reports a status update as successful, the new
    collection has the same records in the same places; a record whose
    identifier is [id] has its [status] equal to the new status and every
    other field as before; every other record is the record it was; the
    loading flag and the inline error are untouched. *)
Theorem status_update_patches_only_status :
  forall (base token : option string) (id newStatus : string)
         (settled : FetchOutcome) (l : list JsVal)
         (loading : bool) (error : JsVal),
    forallb readable l = true ->
    OrderManagement.updateStatus_try settled = Ok tt ->
    exists l',
      next (OrderManagement.updateStatus base token id newStatus settled
              (OrderManagement.mkState (JArr l) loading error)) =
      Ok (OrderManagement.mkState (JArr l') loading error) /\
      Forall2 (fun o o' =>
                 if has_id id o
                 then prop o' "status" = JStr newStatus /\
                      forall k, k <> "status" -> prop o' k = prop o k
                 else o' = o) l l'.
Proof.
  intros base token id newStatus settled l loading error Hr Hok.
  exists (map (fun o => if has_id id o
                        then OrderManagement.with_status newStatus o
                        else o) l).
  split.
  - unfold OrderManagement.updateStatus. rewrite Hok. cbn [next].
    unfold OrderManagement.updateOrders. cbn [OrderManagement.orders].
    rewrite (patch_status_map id newStatus l Hr). reflexivity.
  - clear Hr. induction l as [|o r IH]; cbn [map]; constructor; [|exact IH].
    destruct (has_id id o) eqn:E; [|reflexivity].
    apply (with_status_props id newStatus o E).
Qed.

Lemma status_update_patches_only_status_witness :
  let o1 := JObj [("_id", JStr "o1"); ("email", JStr "a@b.c");
                  ("status", JStr "pending"); ("totalPrice", JNum 12)] in
  let o2 := JObj [("_id", JStr "o2"); ("status", JStr "pending")] in
  let settled := Resolved {| status := 200;
                             parse := Ok (JObj [("success", JBool true)]) |} in
  exists l',
    next (OrderManagement.updateStatus None None "o1" "delivered" settled
            (OrderManagement.mkState (JArr [o1; o2]) false JNull)) =
    Ok (OrderManagement.mkState (JArr l') false JNull) /\
    Forall2 (fun o o' =>
               if has_id "o1" o
               then prop o' "status" = JStr "delivered" /\
                    forall k, k <> "status" -> prop o' k = prop o k
               else o' = o) [o1; o2] l'.
Proof.
  intros o1 o2 settled.
  apply (status_update_patches_only_status None None "o1" "delivered"
           settled [o1; o2] false JNull eq_refl eq_refl).
Defined.

(** The text of an alert that starts with a fixed, non-empty prefix. *)
Lemma prefixed_nonempty (c : ascii) (p s : string) :
  String c p ++ s <> "".
Proof. discriminate. Qed.

(** C6.  When a mutation fails (its [try] block throws, whatever the cause:
    a rejected request, a body that does not parse, a status outside the
    success range, a falsy [success] flag), the handler leaves the whole
    state, collection and inline error included, exactly as it was, and
    raises exactly one alert, whose text is not empty.  This holds for the
    status update and the delete of the orders page, for the delete of the
    contacts page, and for their copies in the admin panel. *)
Theorem failed_mutation_keeps_state_and_alerts :
  forall (base token : option string) (id newStatus : string)
         (settled : FetchOutcome) (err : JsError),
    (OrderManagement.updateStatus_try settled = Throw err ->
     (forall st,
        let o := OrderManagement.updateStatus base token id newStatus
                   settled st in
        next o = Ok st /\
        filter is_alert (trace o) =
        [Alert ("Error updating status: " ++ message err)]) /\
     (forall st,
        let o := AdminPanel.updateStatus base token id newStatus
                   settled st in
        next o = Ok st /\
        filter is_alert (trace o) =
        [Alert ("Error updating status: " ++ message err)]) /\
     "Error updating status: " ++ message err <> "") /\
    (OrderManagement.deleteOrder_try settled = Throw err ->
     (forall st,
        let o := OrderManagement.deleteOrder base token id true settled st in
        next o = Ok st /\
        filter is_alert (trace o) =
        [Alert ("Error deleting order: " ++ message err)]) /\
     (forall st,
        let o := AdminPanel.deleteOrder base token id true settled st in
        next o = Ok st /\
        filter is_alert (trace o) =
        [Alert ("Error deleting order: " ++ message err)]) /\
     "Error deleting order: " ++ message err <> "") /\
    (ContactManagement.deleteContact_try settled = Throw err ->
     (forall st,
        let o := ContactManagement.deleteContact base id true settled st in
        next o = Ok st /\
        filter is_alert (trace o) =
        [Alert ("Error deleting contact: " ++ message err)]) /\
     (forall st,
        let o := AdminPanel.deleteContact id true settled st in
        next o = Ok st /\
        filter is_alert (trace o) =
        [Alert ("Error deleting contact: " ++ message err)]) /\
     "Error deleting contact: " ++ message err <> "").
Proof.
  intros base token id newStatus settled err.
  split; [|split]; intros H.
  - unfold OrderManagement.updateStatus, AdminPanel.updateStatus.
    rewrite H. repeat split. apply prefixed_nonempty.
  - unfold OrderManagement.deleteOrder, AdminPanel.deleteOrder.
    cbn [negb]. rewrite H. repeat split. apply prefixed_nonempty.
  - unfold ContactManagement.deleteContact, AdminPanel.deleteContact.
    cbn [negb]. rewrite H. repeat split. apply prefixed_nonempty.
Qed.

Lemma failed_mutation_keeps_state_and_alerts_witness :
  let o1 := JObj [("_id", JStr "o1"); ("status", JStr "pending")] in
  let st := OrderManagement.mkState (JArr [o1]) false JNull in
  let settled := Resolved {| status := 200;
                             parse := Throw (SyntaxError "Unexpected token <") |} in
  let o := OrderManagement.updateStatus None None "o1" "cancelled"
             settled st in
  next o = Ok st /\
  filter is_alert (trace o) =
  [Alert "Error updating status: Invalid server response (not JSON)."].
Proof.
  intros o1 st settled.
  destruct (failed_mutation_keeps_state_and_alerts None None "o1" "cancelled"
              settled (Error "Invalid server response (not JSON)."))
    as [H _].
  destruct (H eq_refl) as [Hpage _].
  apply (Hpage st).
Defined.

(** C9.  Starting from a collection whose records carry pairwise distinct
    identifiers: after a successful delete the identifiers are still
    distinct; after a successful status update the identifiers are the
    same, in the same order; and a successful list fetch puts the server's
    array in place, whose identifiers are distinct when the server's
    are. *)
Theorem local_mutations_keep_ids_distinct :
  forall (base token : option string) (id newStatus : string)
         (settled : FetchOutcome) (l : list JsVal)
         (loading : bool) (error : JsVal),
    forallb readable l = true ->
    NoDup (ids l) ->
    (OrderManagement.deleteOrder_try settled = Ok tt ->
     exists l',
       next (OrderManagement.deleteOrder base token id true settled
               (OrderManagement.mkState (JArr l) loading error)) =
       Ok (OrderManagement.mkState (JArr l') loading error) /\
       NoDup (ids l')) /\
    (ContactManagement.deleteContact_try settled = Ok tt ->
     exists l',
       next (ContactManagement.deleteContact base id true settled
               (ContactManagement.mkState (JArr l) loading error)) =
       Ok (ContactManagement.mkState (JArr l') loading error) /\
       NoDup (ids l')) /\
    (OrderManagement.updateStatus_try settled = Ok tt ->
     exists l',
       next (OrderManagement.updateStatus base token id newStatus settled
               (OrderManagement.mkState (JArr l) loading error)) =
       Ok (OrderManagement.mkState (JArr l') loading error) /\
       ids l' = ids l /\ NoDup (ids l')) /\
    (forall res fs server,
       ok res = true -> parse res = Ok (JObj fs) ->
       lookup "data" fs = Some (JArr server) ->
       NoDup (ids server) ->
       exists l',
         next (OrderManagement.fetchOrders base token (Resolved res)
                 (OrderManagement.mkState (JArr l) loading error)) =
         Ok (OrderManagement.mkState (JArr l') false JNull) /\
         l' = server /\ NoDup (ids l')).
Proof.
  intros base token id newStatus settled l loading error Hr Hnd.
  split; [|split; [|split]].
  - intros Hok. exists (filter (fun o => negb (has_id id o)) l). split.
    + unfold OrderManagement.deleteOrder. cbn [negb]. rewrite Hok.
      cbn [next]. unfold OrderManagement.updateOrders.
      cbn [OrderManagement.orders].
      now rewrite (order_remove_id_filter id l Hr).
    + apply NoDup_ids_filter, Hnd.
  - intros Hok. exists (filter (fun o => negb (has_id id o)) l). split.
    + unfold ContactManagement.deleteContact. cbn [negb]. rewrite Hok.
      cbn [next]. unfold ContactManagement.updateContacts.
      cbn [ContactManagement.contacts].
      now rewrite (contact_remove_id_filter id l Hr).
    + apply NoDup_ids_filter, Hnd.
  - intros Hok.
    exists (map (fun o => if has_id id o
                          then OrderManagement.with_status newStatus o
                          else o) l).
    split; [|split].
    + unfold OrderManagement.updateStatus. rewrite Hok. cbn [next].
      unfold OrderManagement.updateOrders. cbn [OrderManagement.orders].
      now rewrite (patch_status_map id newStatus l Hr).
    + apply ids_patch_status.
    + rewrite ids_patch_status. exact Hnd.
  - intros res fs server Hok Hp Hd Hs. exists server. split; [|auto].
    now apply fetchOrders_envelope with (fs := fs).
Qed.

Lemma local_mutations_keep_ids_distinct_witness :
  let o1 := JObj [("_id", JStr "o1"); ("status", JStr "pending")] in
  let o2 := JObj [("_id", JStr "o2"); ("status", JStr "pending")] in
  let o3 := JObj [("_id", JStr "o3"); ("status", JStr "delivered")] in
  let settled := Resolved {| status := 200;
                             parse := Ok (JObj [("success", JBool true)]) |} in
  exists l',
    next (OrderManagement.deleteOrder None None "o2" true settled
            (OrderManagement.mkState (JArr [o1; o2; o3]) false JNull)) =
    Ok (OrderManagement.mkState (JArr l') false JNull) /\
    NoDup (ids l').
Proof.
  intros o1 o2 o3 settled.
  assert (Hnd : NoDup (ids [o1; o2; o3])).
  { repeat constructor; simpl; intuition discriminate. }
  destruct (local_mutations_keep_ids_distinct None None "o2" "cancelled"
              settled [o1; o2; o3] false JNull eq_refl Hnd) as [H _].
  apply (H eq_refl).
Defined.

(** *** Export *)

Lemma get_ok_prop v k x : get v k = Ok x -> x = prop v k.
Proof. unfold prop. now intros ->. Qed.

Lemma format_order_row o r :
  OrderManagement.format_order o = Ok r -> order_sheet_row o r.
Proof.
  unfold OrderManagement.format_order. intros H.
  repeat match type of H with
         | bind (get _ _) _ = Ok _ =>
             let x := fresh "x" in let E := fresh "E" in
             apply bind_ok in H as (x & E & H);
             apply get_ok_prop in E; subst x
         | bind (OrderManagement.totalQty _) _ = Ok _ =>
             let q := fresh "q" in let E := fresh "Eq" in
             apply bind_ok in H as (q & E & H)
         end.
  injection H as <-. unfold order_sheet_row.
  split; [reflexivity|]. split; [repeat constructor|].
  split; [reflexivity|]. split; [|reflexivity].
  eexists; split; [eassumption|reflexivity].
Qed.

Lemma format_contact_row c r :
  ContactManagement.format_contact c = Ok r -> contact_sheet_row c r.
Proof.
  unfold ContactManagement.format_contact. intros H.
  repeat match type of H with
         | bind (get _ _) _ = Ok _ =>
             let x := fresh "x" in let E := fresh "E" in
             apply bind_ok in H as (x & E & H);
             apply get_ok_prop in E; subst x
         end.
  injection H as <-. unfold contact_sheet_row.
  split; [reflexivity|]. split; [repeat constructor|reflexivity].
Qed.

Lemma formatted_rows {row : JsVal -> Result SheetRow}
  {P : JsVal -> SheetRow -> Prop} (l : list JsVal) rows :
  (forall o r, row o = Ok r -> P o r) ->
  mapM row l = Ok rows -> Forall2 P l rows.
Proof.
  intros HP H. apply mapM_Forall2 in H.
  induction H; constructor; auto.
Qed.

Lemma formatted_total {row : JsVal -> Result SheetRow} (ok_rec : JsVal -> bool)
  (l : list JsVal) :
  (forall o, ok_rec o = true -> exists r, row o = Ok r) ->
  forallb ok_rec l = true ->
  exists rows, mapM row l = Ok rows /\ List.length rows = List.length l.
Proof.
  intros Hok H.
  destruct (mapM_total row l) as (rows & Hrows).
  { apply Forall_forall. intros o Ho. apply Hok.
    rewrite forallb_forall in H. auto. }
  exists rows. split; [exact Hrows|].
  apply mapM_Forall2, Forall2_length in Hrows. auto.
Qed.

(** C7, as amended.  The rows built for the export are one per record of
    the collection, in the order of the collection, each with all declared
    columns in the declared order.  A column that copies a field holds the
    field's value, hence undefined (a blank cell), not the empty string,
    when the field is missing; a missing first or last name contributes
    the empty string to [Name]; missing line items count as 0; a missing
    creation date is shown as "—".  The contacts export, and both exports
    of the admin panel, hand exactly these rows to the download and cause
    no other event, in particular no request. *)
Theorem export_rows_follow_collection :
  forall (l : list JsVal) (loading : bool) (error : JsVal),
    (forall rows,
       OrderManagement.formatted (JArr l) = Ok rows ->
       Forall2 order_sheet_row l rows) /\
    (forallb order_exportable l = true ->
     exists rows,
       OrderManagement.formatted (JArr l) = Ok rows /\
       List.length rows = List.length l /\
       forall contacts,
         AdminPanel.exportOrdersToExcel
           (AdminPanel.mkState (JArr l) contacts loading error) =
         Ok [Download "Orders_Report.xlsx" "Orders" rows]) /\
    (forall rows,
       ContactManagement.formatted (JArr l) = Ok rows ->
       Forall2 contact_sheet_row l rows) /\
    (forallb readable l = true ->
     exists rows,
       ContactManagement.formatted (JArr l) = Ok rows /\
       List.length rows = List.length l /\
       ContactManagement.exportContactsToExcel
         (ContactManagement.mkState (JArr l) loading error) =
       Ok [Download "Contacts_Report.xlsx" "Contacts" rows] /\
       forall orders,
         AdminPanel.exportContactsToExcel
           (AdminPanel.mkState orders (JArr l) loading error) =
         Ok [Download "Contacts_Report.xlsx" "Contacts" rows]).
Proof.
  intros l loading error.
  split; [|split; [|split]].
  - intros rows H. apply (formatted_rows l rows format_order_row H).
  - intros H.
    destruct (formatted_total (row := OrderManagement.format_order)
                order_exportable l) as (rows & Hrows & Hlen);
      [|exact H|].
    { intros o Ho. unfold order_exportable in Ho.
      apply andb_prop in Ho as [Hr Hi]. now apply format_order_ok. }
    exists rows. unfold AdminPanel.exportOrdersToExcel,
      OrderManagement.formatted. cbn [array_method bind AdminPanel.orders].
    rewrite Hrows. auto.
  - intros rows H. apply (formatted_rows l rows format_contact_row H).
  - intros H.
    destruct (formatted_total (row := ContactManagement.format_contact)
                readable l) as (rows & Hrows & Hlen);
      [apply format_contact_ok|exact H|].
    exists rows. unfold AdminPanel.exportContactsToExcel,
      ContactManagement.exportContactsToExcel, ContactManagement.formatted.
    cbn [array_method bind AdminPanel.contacts ContactManagement.contacts].
    rewrite Hrows. auto.
Qed.

Lemma export_rows_follow_collection_witness :
  let c1 := JObj [("_id", JStr "c1"); ("fullName", JStr "Ada");
                  ("createdAt", JStr "2025-10-14T09:30:00.000Z")] in
  let c2 := JObj [("_id", JStr "c2"); ("query", JStr "Is it vegan?")] in
  exists rows,
    ContactManagement.formatted (JArr [c1; c2]) = Ok rows /\
    List.length rows = 2%nat /\
    ContactManagement.exportContactsToExcel
      (ContactManagement.mkState (JArr [c1; c2]) false JNull) =
    Ok [Download "Contacts_Report.xlsx" "Contacts" rows] /\
    forall orders,
      AdminPanel.exportContactsToExcel
        (AdminPanel.mkState orders (JArr [c1; c2]) false JNull) =
      Ok [Download "Contacts_Report.xlsx" "Contacts" rows].
Proof.
  intros c1 c2.
  destruct (export_rows_follow_collection [c1; c2] false JNull)
    as (_ & _ & _ & H).
  apply (H eq_refl).
Defined.

(** C7 as stated fails on missing fields: for a contact without e-mail
    address and creation date the exported row holds undefined and "—",
    not the empty string. *)
Lemma export_missing_fields_are_not_empty_strings :
  let c := JObj [("_id", JStr "c1"); ("fullName", JStr "Ada")] in
  exists row,
    ContactManagement.exportContactsToExcel
      (ContactManagement.mkState (JArr [c]) false JNull) =
    Ok [Download "Contacts_Report.xlsx" "Contacts" [row]] /\
    cell "Email" row = Some (Val JUndefined) /\
    cell "CreatedAt" row = Some (Val (JStr "—")) /\
    Val JUndefined <> Val (JStr "") /\
    Val (JStr "—") <> Val (JStr "").
Proof.
  intros c. eexists. split; [reflexivity|].
  repeat split; discriminate.
Qed.

(** The export of the orders page builds its rows and then calls
    [downloadFile], which that module does not define: the handler always
    throws and nothing is downloaded. *)
Lemma orders_page_export_never_downloads st :
  forall events, OrderManagement.exportOrdersToExcel st <> Ok events.
Proof.
  intros events. unfold OrderManagement.exportOrdersToExcel.
  destruct (OrderManagement.formatted (OrderManagement.orders st));
    discriminate.
Qed.

(** *** Initial state *)

(** C8, as amended.  The orders page, the contacts page and the admin panel
    start with loading set, no error and empty collections, and starting
    the initial fetch leaves that state as it is until the fetch resolves,
    the orders and contacts pages showing their loading row meanwhile.  The
    menu items page keeps no error state and starts with an empty
    collection and loading not set; loading is set when its initial fetch
    starts. *)
Theorem initial_state_of_controllers :
  (OrderManagement.init = OrderManagement.mkState (JArr []) true JNull /\
   OrderManagement.fetchOrders_pending OrderManagement.init =
   OrderManagement.init /\
   OrderManagement.orderContent OrderManagement.init =
   Ok [LoadingRow "Loading orders…"]) /\
  (ContactManagement.init = ContactManagement.mkState (JArr []) true JNull /\
   ContactManagement.fetchContacts_pending ContactManagement.init =
   ContactManagement.init /\
   ContactManagement.tableBody ContactManagement.init =
   Ok [LoadingRow "Loading contacts…"]) /\
  (AdminPanel.init = AdminPanel.mkState (JArr []) (JArr []) true JNull /\
   AdminPanel.fetchData_pending AdminPanel.init = AdminPanel.init) /\
  (ListItemsPage.init = ListItemsPage.mkState (JArr []) false /\
   ListItemsPage.fetchItems_pending ListItemsPage.init =
   ListItemsPage.mkState (JArr []) true).
Proof. repeat split. Qed.

(** C8 as stated fails for the menu items page, which is constructed with
    loading not set. *)
Lemma menu_page_starts_not_loading :
  ListItemsPage.loading ListItemsPage.init = false /\
  ListItemsPage.loading ListItemsPage.init <> true.
Proof. split; [reflexivity | discriminate]. Qed.

(* ================================================================== *)
(** ** Further properties of the pages *)

Import MoreProps.

(** *** Confirmation *)

(** X1.  A delete handler sends its request exactly when the user confirms.
    When the user declines, it asks and does nothing else, however the
    request would have settled: the state is the same and no alert is
    raised.  This holds for the delete of orders, of contacts and of menu
    items, and for the copies in the admin panel. *)
Theorem delete_asks_before_it_sends :
  forall (base token : option string) (id : string) (confirmed : bool)
         (settled : FetchOutcome),
    (forall st,
       let o := OrderManagement.deleteOrder base token id confirmed
                  settled st in
       existsb is_fetch (trace o) = confirmed /\
       (confirmed = false ->
        next o = Ok st /\ existsb is_alert (trace o) = false)) /\
    (forall st,
       let o := ContactManagement.deleteContact base id confirmed
                  settled st in
       existsb is_fetch (trace o) = confirmed /\
       (confirmed = false ->
        next o = Ok st /\ existsb is_alert (trace o) = false)) /\
    (forall st,
       let o := ListItemsPage.handleDelete id confirmed settled st in
       existsb is_fetch (trace o) = confirmed /\
       (confirmed = false ->
        next o = Ok st /\ existsb is_alert (trace o) = false)) /\
    (forall st,
       let o := AdminPanel.deleteOrder base token id confirmed
                  settled st in
       existsb is_fetch (trace o) = confirmed /\
       (confirmed = false ->
        next o = Ok st /\ existsb is_alert (trace o) = false)) /\
    (forall st,
       let o := AdminPanel.deleteContact id confirmed settled st in
       existsb is_fetch (trace o) = confirmed /\
       (confirmed = false ->
        next o = Ok st /\ existsb is_alert (trace o) = false)).
Proof.
  intros base token id confirmed settled.
  repeat match goal with |- _ /\ _ => split end; intros st o; subst o.
  - unfold OrderManagement.deleteOrder. destruct confirmed; cbn [negb].
    + destruct (OrderManagement.deleteOrder_try settled);
        split; first [reflexivity | discriminate].
    + split; [reflexivity | intros _; split; reflexivity].
  - unfold ContactManagement.deleteContact. destruct confirmed; cbn [negb].
    + destruct (ContactManagement.deleteContact_try settled);
        split; first [reflexivity | discriminate].
    + split; [reflexivity | intros _; split; reflexivity].
  - unfold ListItemsPage.handleDelete. destruct confirmed; cbn [negb].
    + destruct (ListItemsPage.handleDelete_try id settled st) as [[v|t]|e];
        split; first [reflexivity | discriminate].
    + split; [reflexivity | intros _; split; reflexivity].
  - unfold AdminPanel.deleteOrder. destruct confirmed; cbn [negb].
    + destruct (OrderManagement.deleteOrder_try settled);
        split; first [reflexivity | discriminate].
    + split; [reflexivity | intros _; split; reflexivity].
  - unfold AdminPanel.deleteContact. destruct confirmed; cbn [negb].
    + destruct (ContactManagement.deleteContact_try settled);
        split; first [reflexivity | discriminate].
    + split; [reflexivity | intros _; split; reflexivity].
Qed.

(** *** A list fetch that fails *)

Lemma truthy_JStr s : s <> "" -> truthy (JStr s) = true.
Proof.
  intros H. cbn. destruct (s =? "") eqn:E; [|reflexivity].
  apply String.eqb_eq in E. contradiction.
Qed.

(** X2.  When the list fetch of the orders page or of the contacts
    page fails with a non-empty message (rejected request, body that does
    not parse, status outside the success range), the collection is left
    as it was, loading ends, and the table body is a single error row
    showing that message. *)
Theorem failed_list_fetch_shows_error_row :
  forall (base token : option string) (settled : FetchOutcome)
         (err : JsError),
    message err <> "" ->
    (OrderManagement.fetchOrders_try settled = Throw err ->
     forall st, exists st',
       next (OrderManagement.fetchOrders base token settled st) = Ok st' /\
       OrderManagement.orders st' = OrderManagement.orders st /\
       OrderManagement.loading st' = false /\
       OrderManagement.orderContent st' =
       Ok [ErrorRow (JStr (message err))]) /\
    (ContactManagement.fetchContacts_try settled = Throw err ->
     forall st, exists st',
       next (ContactManagement.fetchContacts base settled st) = Ok st' /\
       ContactManagement.contacts st' = ContactManagement.contacts st /\
       ContactManagement.loading st' = false /\
       ContactManagement.tableBody st' =
       Ok [ErrorRow (JStr (message err))]).
Proof.
  intros base token settled err Hne. split; intros Hthrow st.
  - unfold OrderManagement.fetchOrders. rewrite Hthrow. cbn [next].
    eexists. split; [reflexivity|]. repeat split.
    unfold OrderManagement.orderContent.
    cbn [OrderManagement.loading OrderManagement.setLoading
         OrderManagement.error OrderManagement.setError].
    now rewrite (truthy_JStr _ Hne).
  - unfold ContactManagement.fetchContacts. rewrite Hthrow. cbn [next].
    eexists. split; [reflexivity|]. repeat split.
    unfold ContactManagement.tableBody.
    cbn [ContactManagement.loading ContactManagement.setLoading
         ContactManagement.error ContactManagement.setError].
    now rewrite (truthy_JStr _ Hne).
Qed.

Lemma failed_list_fetch_shows_error_row_witness :
  let old := JObj [("_id", JStr "o1")] in
  let settled := Resolved {| status := 200;
                             parse := Throw (SyntaxError "Unexpected token <") |} in
  exists st',
    next (OrderManagement.fetchOrders None None settled
            (OrderManagement.mkState (JArr [old]) false JNull)) = Ok st' /\
    OrderManagement.orders st' = JArr [old] /\
    OrderManagement.loading st' = false /\
    OrderManagement.orderContent st' =
    Ok [ErrorRow (JStr "Invalid server response (not JSON).")].
Proof.
  intros old settled.
  assert (Hne : message (Error "Invalid server response (not JSON).") <> "")
    by discriminate.
  destruct (failed_list_fetch_shows_error_row None None settled
              (Error "Invalid server response (not JSON).") Hne) as [H _].
  apply (H eq_refl).
Defined.

(** X3.  A failure whose message is the empty string is not shown:
    when the status is outside the success range and the body's [message]
    is truthy but prints as the empty string (an empty array, say), the
    orders page stores the empty string as its error, and its table body is
    what it would be without any error. *)
Theorem empty_error_message_is_not_shown :
  forall (base token : option string) (res : Response) (body : JsVal)
         (st : OrderManagement.State),
    ok res = false -> parse res = Ok body -> readable body = true ->
    truthy (prop body "message") = true ->
    ToString (prop body "message") = "" ->
    exists st',
      next (OrderManagement.fetchOrders base token (Resolved res) st) =
      Ok st' /\
      OrderManagement.error st' = JStr "" /\
      OrderManagement.orderContent st' =
      OrderManagement.orderContent
        (OrderManagement.mkState (OrderManagement.orders st) false JNull).
Proof.
  intros base token res body st Hok Hp Hr Ht Hs.
  destruct (fetchOrders_classifies res) as (_ & _ & Hmsg & _).
  specialize (Hmsg Hok body Hp Hr). rewrite Ht, Hs in Hmsg.
  unfold OrderManagement.fetchOrders. rewrite Hmsg. cbn [next message].
  eexists. split; [reflexivity|]. split; reflexivity.
Qed.

Lemma empty_error_message_is_not_shown_witness :
  let old := JObj [("_id", JStr "o1")] in
  let res := {| status := 500;
                parse := Ok (JObj [("message", JArr [])]) |} in
  exists st',
    next (OrderManagement.fetchOrders None None (Resolved res)
            (OrderManagement.mkState (JArr [old]) false JNull)) = Ok st' /\
    OrderManagement.error st' = JStr "" /\
    OrderManagement.orderContent st' =
    OrderManagement.orderContent
      (OrderManagement.mkState (JArr [old]) false JNull).
Proof.
  intros old res.
  apply (empty_error_message_is_not_shown None None res
           (JObj [("message", JArr [])])
           (OrderManagement.mkState (JArr [old]) false JNull)
           eq_refl eq_refl eq_refl eq_refl eq_refl).
Defined.

(** *** How the mutations compose *)

Lemma set_field_twice k v1 v2 fs :
  set_field k v2 (set_field k v1 fs) = set_field k v2 fs.
Proof.
  induction fs as [|[k' v'] r IH]; simpl.
  - now rewrite String.eqb_refl.
  - destruct (k' =? k) eqn:E; simpl.
    + now rewrite String.eqb_refl.
    + now rewrite E, IH.
Qed.

Lemma patched_id id newStatus o :
  prop (patched id newStatus o) "_id" = prop o "_id".
Proof.
  unfold patched. destruct (has_id id o) eqn:E; [|reflexivity].
  apply (with_status_props id newStatus o E). discriminate.
Qed.

Lemma has_id_patched a id newStatus o :
  has_id a (patched id newStatus o) = has_id a o.
Proof. unfold has_id. now rewrite patched_id. Qed.

Lemma readable_patched id newStatus o :
  readable o = true -> readable (patched id newStatus o) = true.
Proof.
  unfold patched. destruct (has_id id o) eqn:E; [|auto].
  destruct (has_id_object id o E) as (fs & ->). reflexivity.
Qed.

Lemma patched_twice id s1 s2 o :
  patched id s2 (patched id s1 o) = patched id s2 o.
Proof.
  unfold patched at 1. rewrite has_id_patched.
  unfold patched. destruct (has_id id o) eqn:E; [|reflexivity].
  destruct (has_id_object id o E) as (fs & ->).
  cbn [OrderManagement.with_status]. now rewrite set_field_twice.
Qed.

Lemma forallb_readable_filter (q : JsVal -> bool) l :
  forallb readable l = true -> forallb readable (filter q l) = true.
Proof.
  rewrite !forallb_forall. intros H o Ho.
  apply filter_In in Ho as [Ho _]. auto.
Qed.

Lemma forallb_readable_patched id s l :
  forallb readable l = true ->
  forallb readable (map (patched id s) l) = true.
Proof.
  rewrite !forallb_forall. intros H o Ho.
  apply in_map_iff in Ho as (x & <- & Hx). apply readable_patched. auto.
Qed.

Section OrdersPageSteps.

Variable base : option string.
Variable token : option string.

(** The state after a successful delete, on readable records. *)
Lemma deleteOrder_next id settled l loading error :
  forallb readable l = true ->
  OrderManagement.deleteOrder_try settled = Ok tt ->
  next (OrderManagement.deleteOrder base token id true settled
          (OrderManagement.mkState (JArr l) loading error)) =
  Ok (OrderManagement.mkState
        (JArr (filter (fun o => negb (has_id id o)) l)) loading error).
Proof.
  intros Hr Hok. unfold OrderManagement.deleteOrder. cbn [negb].
  rewrite Hok. cbn [next]. unfold OrderManagement.updateOrders.
  cbn [OrderManagement.orders].
  now rewrite (order_remove_id_filter id l Hr).
Qed.

(** The state after a successful status update, on readable records. *)
Lemma updateStatus_next id newStatus settled l loading error :
  forallb readable l = true ->
  OrderManagement.updateStatus_try settled = Ok tt ->
  next (OrderManagement.updateStatus base token id newStatus settled
          (OrderManagement.mkState (JArr l) loading error)) =
  Ok (OrderManagement.mkState (JArr (map (patched id newStatus) l))
        loading error).
Proof.
  intros Hr Hok. unfold OrderManagement.updateStatus. rewrite Hok.
  cbn [next]. unfold OrderManagement.updateOrders.
  cbn [OrderManagement.orders].
  now rewrite (patch_status_map id newStatus l Hr).
Qed.

End OrdersPageSteps.

Lemma filter_swap {A} (p q : A -> bool) l :
  filter p (filter q l) = filter q (filter p l).
Proof.
  induction l as [|x r IH]; simpl; [reflexivity|].
  destruct (q x) eqn:Eq, (p x) eqn:Ep; simpl; rewrite ?Eq, ?Ep, IH;
    reflexivity.
Qed.

Lemma filter_twice {A} (p : A -> bool) l :
  filter p (filter p l) = filter p l.
Proof. apply forallb_filter_id, forallb_filter. Qed.

(** X4.  Successful deletes on the orders page can be applied in
    either order with the same result, and deleting the same identifier a
    second time changes nothing. *)
Theorem deletes_commute_and_repeat_harmlessly :
  forall (base token : option string) (a b : string)
         (sa sb : FetchOutcome) (l : list JsVal)
         (loading : bool) (error : JsVal),
    forallb readable l = true ->
    OrderManagement.deleteOrder_try sa = Ok tt ->
    OrderManagement.deleteOrder_try sb = Ok tt ->
    let st := OrderManagement.mkState (JArr l) loading error in
    let del id s := OrderManagement.deleteOrder base token id true s in
    (st1 <- next (del a sa st) ;; next (del b sb st1)) =
    (st1 <- next (del b sb st) ;; next (del a sa st1)) /\
    (st1 <- next (del a sa st) ;; next (del a sb st1)) = next (del a sa st) /\
    exists st', next (del a sa st) = Ok st'.
Proof.
  intros base token a b sa sb l loading error Hr Ha Hb st del.
  subst st del. cbv beta.
  rewrite !(deleteOrder_next base token _ _ l loading error Hr) by assumption.
  cbn [bind].
  rewrite !deleteOrder_next by (try assumption; now apply forallb_readable_filter).
  repeat split.
  - f_equal. f_equal. f_equal. apply filter_swap.
  - f_equal. f_equal. f_equal. apply filter_twice.
  - eauto.
Qed.

Lemma deletes_commute_and_repeat_harmlessly_witness :
  let o1 := JObj [("_id", JStr "o1")] in
  let o2 := JObj [("_id", JStr "o2")] in
  let o3 := JObj [("_id", JStr "o3")] in
  let yes := Resolved {| status := 200;
                         parse := Ok (JObj [("success", JBool true)]) |} in
  let st := OrderManagement.mkState (JArr [o1; o2; o3]) false JNull in
  let del id s := OrderManagement.deleteOrder None None id true s in
  (st1 <- next (del "o1" yes st) ;; next (del "o3" yes st1)) =
  (st1 <- next (del "o3" yes st) ;; next (del "o1" yes st1)) /\
  (st1 <- next (del "o1" yes st) ;; next (del "o1" yes st1)) =
  next (del "o1" yes st) /\
  exists st', next (del "o1" yes st) = Ok st'.
Proof.
  intros o1 o2 o3 yes st del.
  apply (deletes_commute_and_repeat_harmlessly None None "o1" "o3" yes yes
           [o1; o2; o3] false JNull eq_refl eq_refl eq_refl).
Defined.

(** X5.  A successful status update and a successful delete on the
    orders page can be applied in either order with the same result, for
    the same or for different identifiers. *)
Theorem update_and_delete_commute :
  forall (base token : option string) (a b newStatus : string)
         (sd su : FetchOutcome) (l : list JsVal)
         (loading : bool) (error : JsVal),
    forallb readable l = true ->
    OrderManagement.deleteOrder_try sd = Ok tt ->
    OrderManagement.updateStatus_try su = Ok tt ->
    let st := OrderManagement.mkState (JArr l) loading error in
    let del := OrderManagement.deleteOrder base token a true sd in
    let upd := OrderManagement.updateStatus base token b newStatus su in
    (st1 <- next (del st) ;; next (upd st1)) =
    (st1 <- next (upd st) ;; next (del st1)) /\
    exists st', (st1 <- next (del st) ;; next (upd st1)) = Ok st'.
Proof.
  intros base token a b s sd su l loading error Hr Hd Hu st del upd.
  subst st del upd. cbv beta.
  rewrite (deleteOrder_next base token a sd l loading error Hr Hd).
  rewrite (updateStatus_next base token b s su l loading error Hr Hu).
  cbn [bind].
  rewrite updateStatus_next by (try assumption; now apply forallb_readable_filter).
  rewrite deleteOrder_next by (try assumption; now apply forallb_readable_patched).
  split; [|eauto].
  f_equal. f_equal. f_equal.
  rewrite filter_map_swap. f_equal.
  apply filter_ext. intros o. now rewrite has_id_patched.
Qed.

Lemma update_and_delete_commute_witness :
  let o1 := JObj [("_id", JStr "o1"); ("status", JStr "pending")] in
  let o2 := JObj [("_id", JStr "o2"); ("status", JStr "pending")] in
  let yes := Resolved {| status := 200;
                         parse := Ok (JObj [("success", JBool true)]) |} in
  let st := OrderManagement.mkState (JArr [o1; o2]) false JNull in
  let del := OrderManagement.deleteOrder None None "o1" true yes in
  let upd := OrderManagement.updateStatus None None "o2" "cancelled" yes in
  (st1 <- next (del st) ;; next (upd st1)) =
  (st1 <- next (upd st) ;; next (del st1)) /\
  exists st', (st1 <- next (del st) ;; next (upd st1)) = Ok st'.
Proof.
  intros o1 o2 yes st del upd.
  apply (update_and_delete_commute None None "o1" "o2" "cancelled" yes yes
           [o1; o2] false JNull eq_refl eq_refl eq_refl).
Defined.

(** X6.  Two successful status updates of the same identifier leave
    the collection as the second one alone would: the last status wins, and
    repeating an update changes nothing. *)
Theorem last_status_update_wins :
  forall (base token : option string) (id s1 s2 : string)
         (su1 su2 : FetchOutcome) (l : list JsVal)
         (loading : bool) (error : JsVal),
    forallb readable l = true ->
    OrderManagement.updateStatus_try su1 = Ok tt ->
    OrderManagement.updateStatus_try su2 = Ok tt ->
    let st := OrderManagement.mkState (JArr l) loading error in
    let upd s su := OrderManagement.updateStatus base token id s su in
    (st1 <- next (upd s1 su1 st) ;; next (upd s2 su2 st1)) =
    next (upd s2 su2 st) /\
    exists st', next (upd s2 su2 st) = Ok st'.
Proof.
  intros base token id s1 s2 su1 su2 l loading error Hr H1 H2 st upd.
  subst st upd. cbv beta.
  rewrite !(updateStatus_next base token id _ _ l loading error Hr)
    by assumption.
  cbn [bind].
  rewrite updateStatus_next by (try assumption; now apply forallb_readable_patched).
  split; [|eauto].
  f_equal. f_equal. f_equal. rewrite map_map. apply map_ext. intros o.
  apply patched_twice.
Qed.

Lemma last_status_update_wins_witness :
  let o1 := JObj [("_id", JStr "o1"); ("status", JStr "pending")] in
  let yes := Resolved {| status := 200;
                         parse := Ok (JObj [("success", JBool true)]) |} in
  let st := OrderManagement.mkState (JArr [o1]) false JNull in
  let upd s su := OrderManagement.updateStatus None None "o1" s su in
  (st1 <- next (upd "delivered" yes st) ;; next (upd "cancelled" yes st1)) =
  next (upd "cancelled" yes st) /\
  exists st', next (upd "cancelled" yes st) = Ok st'.
Proof.
  intros o1 yes st upd.
  apply (last_status_update_wins None None "o1" "delivered" "cancelled"
           yes yes [o1] false JNull eq_refl eq_refl eq_refl).
Defined.

(** *** The helpers of the orders table *)







Lemma foldM_qty_shape l : forall acc q,
  foldM (fun n i => q <- get i "quantity" ;;
                    Ok (plus n (or q (JNum 0)))) acc l = Ok q ->
  forallb readable l = true.
Proof.
  induction l as [|i r IH]; simpl; intros acc q H; [reflexivity|].
  destruct (readable i) eqn:Hi.
  - rewrite (get_readable i "quantity" Hi) in H. cbn [bind] in H.
    simpl. eapply IH, H.
  - destruct (get_unreadable i "quantity" Hi) as (e & He).
    rewrite He in H. discriminate.
Qed.

Lemma totalQty_shape items q :
  OrderManagement.totalQty items = Ok q -> items_ok items = true.
Proof.
  unfold OrderManagement.totalQty.
  destruct items; cbn [array_method bind]; try discriminate.
  - reflexivity.
  - intros H. cbn. eapply foldM_qty_shape, H.
Qed.

(** X8.  The item count of an order can be computed exactly when
    the line items are missing (undefined) or are an array without null and
    undefined entries; anything else, null included, makes the call
    throw.  Missing line items count as 0, and so does the empty array. *)
Theorem total_quantity_is_defined_on_item_arrays :
  (forall items,
     (exists q, OrderManagement.totalQty items = Ok q) <->
     items_ok items = true) /\
  OrderManagement.totalQty JUndefined = Ok (JNum 0) /\
  OrderManagement.totalQty (JArr []) = Ok (JNum 0) /\
  (exists e, OrderManagement.totalQty JNull = Throw e).
Proof.
  split; [|repeat split; eexists; reflexivity].
  intros items. split.
  - intros (q & H). exact (totalQty_shape items q H).
  - apply totalQty_ok.
Qed.




(** *** When the tables render *)




Lemma format_order_shape o r :
  OrderManagement.format_order o = Ok r -> order_exportable o = true.
Proof.
  unfold OrderManagement.format_order, order_exportable. intros H.
  destruct (readable o) eqn:Hr.
  - rewrite !(get_readable o _ Hr) in H. cbn [bind] in H.
    apply bind_ok in H as (q & Hq & _).
    now rewrite (totalQty_shape _ _ Hq).
  - destruct (get_unreadable o "_id" Hr) as (e & He).
    rewrite He in H. discriminate.
Qed.






(** *** The table and the export agree *)

Lemma order_row_readable o :
  readable o = true ->
  OrderManagement.order_row o =
  payment <- OrderManagement.getPaymentPill (prop o "paymentMethod") ;;
  qty <- OrderManagement.totalQty (prop o "items") ;;
  Ok (DataRow (prop o "_id")
        [Text [Val (or (or (prop o "email") (prop o "phone")) (JStr "—"))];
         Text [Val (prop o "address"); Val (JStr ", "); Val (prop o "city")];
         Text [Val qty];
         Text [OrderManagement.currency (or (prop o "totalPrice") (JNum 0))];
         Text [OrderManagement.formatDate (prop o "createdAt")];
         PillCell payment;
         SelectCell (prop o "status");
         PillCell (OrderManagement.getDeliveryPill (prop o "status"));
         DeleteCell]).
Proof.
  intros Hr. unfold OrderManagement.order_row.
  rewrite !(get_readable o _ Hr). cbn [bind].
  destruct (OrderManagement.getPaymentPill (prop o "paymentMethod"));
    reflexivity.
Qed.



(** *** A status update as the table shows it *)

Lemma order_shape_patched id newStatus o :
  order_shape o = true -> order_shape (patched id newStatus o) = true.
Proof.
  unfold patched. destruct (has_id id o) eqn:E; [|auto].
  unfold order_shape. intros H.
  apply andb_prop in H as [H Hi]. apply andb_prop in H as [_ Hp].
  destruct (with_status_props id newStatus o E) as [_ Hk].
  rewrite !Hk by discriminate. rewrite Hp, Hi.
  destruct (has_id_object id o E) as (fs & ->). reflexivity.
Qed.

(** X13.  After a status update, the row of an updated order shows
    the new status in its selector and the delivery pill of the new status
    ("Cancelled" in red for cancelled, "Delivered" in green for delivered,
    "Out for Delivery" in blue for anything else); its key and its other
    cells are those of the row before the update. *)
Theorem updated_order_row_shows_new_status :
  forall (id newStatus : string) (o : JsVal),
    has_id id o = true -> order_shape o = true ->
    exists key c0 c1 c2 c3 c4 c5,
      OrderManagement.order_row o =
      Ok (DataRow key
            [c0; c1; c2; c3; c4; c5;
             SelectCell (prop o "status");
             PillCell (OrderManagement.getDeliveryPill (prop o "status"));
             DeleteCell]) /\
      OrderManagement.order_row (OrderManagement.with_status newStatus o) =
      Ok (DataRow key
            [c0; c1; c2; c3; c4; c5;
             SelectCell (JStr newStatus);
             PillCell (OrderManagement.getDeliveryPill (JStr newStatus));
             DeleteCell]) /\
      OrderManagement.getDeliveryPill (JStr newStatus) =
      (if newStatus =? "delivered"
       then {| label := JStr "Delivered"; tone := "green" |}
       else if newStatus =? "cancelled"
       then {| label := JStr "Cancelled"; tone := "red" |}
       else {| label := JStr "Out for Delivery"; tone := "blue" |}).
Proof.
  intros id s o Hid Hs.
  pose proof (order_shape_patched id s o Hs) as Hs'.
  unfold patched in Hs'. rewrite Hid in Hs'.
  destruct (with_status_props id s o Hid) as [Hst Hk].
  assert (Hr : readable o = true).
  { unfold order_shape in Hs. apply andb_prop in Hs as [Hs _].
    now apply andb_prop in Hs as [Hs _]. }
  assert (Hr' : readable (OrderManagement.with_status s o) = true).
  { destruct (has_id_object id o Hid) as (fs & ->). reflexivity. }
  rewrite (order_row_readable o Hr), (order_row_readable _ Hr').
  rewrite Hst. rewrite !Hk by discriminate.
  unfold order_shape in Hs.
  apply andb_prop in Hs as [Hs Hi]. apply andb_prop in Hs as [_ Hp].
  destruct (getPaymentPill_ok _ Hp) as (p & ->).
  destruct (totalQty_ok _ Hi) as (q & ->). cbn [bind].
  eexists _, _, _, _, _, _, _. repeat split.
Qed.

Lemma updated_order_row_shows_new_status_witness :
  let o := JObj [("_id", JStr "o1"); ("email", JStr "a@b.c");
                 ("status", JStr "pending")] in
  exists key c0 c1 c2 c3 c4 c5,
    OrderManagement.order_row o =
    Ok (DataRow key
          [c0; c1; c2; c3; c4; c5;
           SelectCell (JStr "pending");
           PillCell {| label := JStr "Out for Delivery"; tone := "blue" |};
           DeleteCell]) /\
    OrderManagement.order_row (OrderManagement.with_status "cancelled" o) =
    Ok (DataRow key
          [c0; c1; c2; c3; c4; c5;
           SelectCell (JStr "cancelled");
           PillCell {| label := JStr "Cancelled"; tone := "red" |};
           DeleteCell]).
Proof.
  intros o.
  destruct (updated_order_row_shows_new_status "o1" "cancelled" o
              eq_refl eq_refl)
    as (key & c0 & c1 & c2 & c3 & c4 & c5 & H1 & H2 & _).
  exists key, c0, c1, c2, c3, c4, c5. split; [exact H1 | exact H2].
Defined.

(** *** The joint fetch of the admin panel *)

(** X14.  The admin panel replaces its two collections together
    or not at all: when the joint request is rejected, or either response
    has a status outside the success range or a body that does not parse,
    both the orders and the contacts stay as they were, loading ends and
    the inline error is set to a message. *)
Theorem panel_fetch_is_all_or_nothing :
  forall (base token : option string) (st : AdminPanel.State),
    (forall e, exists st',
       next (AdminPanel.fetchData base token (Throw e) st) = Ok st' /\
       AdminPanel.orders st' = AdminPanel.orders st /\
       AdminPanel.contacts st' = AdminPanel.contacts st /\
       AdminPanel.loading st' = false /\
       AdminPanel.error st' = JStr (message e)) /\
    (forall orderRes contactRes,
       ok orderRes = false \/ ok contactRes = false \/
       (exists e, parse orderRes = Throw e) \/
       (exists e, parse contactRes = Throw e) ->
       exists st' msg,
         next (AdminPanel.fetchData base token (Ok (orderRes, contactRes))
                 st) = Ok st' /\
         AdminPanel.orders st' = AdminPanel.orders st /\
         AdminPanel.contacts st' = AdminPanel.contacts st /\
         AdminPanel.loading st' = false /\
         AdminPanel.error st' = JStr msg).
Proof.
  intros base token st. split.
  - intros e. eexists. split; [reflexivity|]. repeat split.
  - intros orderRes contactRes H.
    unfold AdminPanel.fetchData.
    destruct (AdminPanel.fetchData_try (Ok (orderRes, contactRes)))
      as [[o c]|err] eqn:E.
    + exfalso.
      destruct (fetchData_classifies_holds orderRes contactRes)
        as (Hsucc & _ & _).
      destruct (Hsucc _ E) as ((Hoo & bo & Hpo) & (Hoc & bc & Hpc)).
      destruct H as [H|[H|[(e & H)|(e & H)]]]; congruence.
    + cbn [next]. eexists _, _. split; [reflexivity|]. repeat split.
Qed.

Lemma panel_fetch_is_all_or_nothing_witness :
  let old := JObj [("_id", JStr "o1")] in
  let st := AdminPanel.mkState (JArr [old]) (JArr []) false JNull in
  let orderRes := {| status := 200;
                     parse := Ok (JObj [("data", JArr [])]) |} in
  let contactRes := {| status := 502;
                       parse := Throw (SyntaxError "Unexpected token <") |} in
  exists st' msg,
    next (AdminPanel.fetchData None None (Ok (orderRes, contactRes)) st) =
    Ok st' /\
    AdminPanel.orders st' = JArr [old] /\
    AdminPanel.contacts st' = JArr [] /\
    AdminPanel.loading st' = false /\
    AdminPanel.error st' = JStr msg.
Proof.
  intros old st orderRes contactRes.
  destruct (panel_fetch_is_all_or_nothing None None st) as [_ H].
  apply (H orderRes contactRes). right. left. reflexivity.
Defined.

(** X15.  The admin panel keeps the parsed contacts body itself
    as its contacts.  When that body is an envelope object rather than an
    array, the fetch still succeeds, the contacts table shows its
    empty-state row whatever the envelope holds, and the contacts export
    throws instead of downloading. *)
Theorem panel_contacts_envelope_is_not_unwrapped :
  forall (base token : option string) (orderRes contactRes : Response)
         (ob : JsVal) (fs : list (string * JsVal)) (st : AdminPanel.State),
    ok orderRes = true -> parse orderRes = Ok ob -> readable ob = true ->
    ok contactRes = true -> parse contactRes = Ok (JObj fs) ->
    truthy (prop (JObj fs) "length") = false ->
    exists st',
      next (AdminPanel.fetchData base token (Ok (orderRes, contactRes)) st) =
      Ok st' /\
      AdminPanel.contacts st' = JObj fs /\
      AdminPanel.error st' = JNull /\
      AdminPanel.contactContent st' =
      Ok [EmptyRow "No contact messages found"] /\
      exists e, AdminPanel.exportContactsToExcel st' = Throw e.
Proof.
  intros base token orderRes contactRes ob fs st Hoo Hpo Hr Hoc Hpc Hlen.
  unfold AdminPanel.fetchData, AdminPanel.fetchData_try,
    AdminPanel.parseJsonSafely.
  cbn [bind]. rewrite Hpo, Hpc, Hoo, Hoc. cbn [negb bind].
  rewrite (get_readable ob "data" Hr). cbn [bind next].
  eexists. split; [reflexivity|].
  split; [reflexivity|]. split; [reflexivity|]. split.
  - unfold AdminPanel.contactContent.
    cbn [AdminPanel.contacts AdminPanel.setLoading AdminPanel.setContacts
         AdminPanel.setOrders or truthy].
    rewrite (get_readable (JObj fs) "length" eq_refl). cbn [bind].
    now rewrite Hlen.
  - eexists. reflexivity.
Qed.

Lemma panel_contacts_envelope_is_not_unwrapped_witness :
  let c := JObj [("_id", JStr "c1"); ("fullName", JStr "Ada")] in
  let orderRes := {| status := 200;
                     parse := Ok (JObj [("data", JArr [])]) |} in
  let contactRes := {| status := 200;
                       parse := Ok (JObj [("data", JArr [c])]) |} in
  exists st',
    next (AdminPanel.fetchData None None (Ok (orderRes, contactRes))
            AdminPanel.init) = Ok st' /\
    AdminPanel.contacts st' = JObj [("data", JArr [c])] /\
    AdminPanel.error st' = JNull /\
    AdminPanel.contactContent st' =
    Ok [EmptyRow "No contact messages found"] /\
    exists e, AdminPanel.exportContactsToExcel st' = Throw e.
Proof.
  intros c orderRes contactRes.
  apply (panel_contacts_envelope_is_not_unwrapped None None orderRes
           contactRes (JObj [("data", JArr [])]) [("data", JArr [c])]
           AdminPanel.init eq_refl eq_refl eq_refl eq_refl eq_refl eq_refl).
Defined.

(** *** A list whose data is not an array *)



(** *** The menu items page *)






(** X18.  The menu items page stores [data.data] as its collection
    whenever the body's [success] is truthy.  When [data] is missing or
    null, the fetch ends without any alert, and the page then throws when
    it renders, because it reads the length of its collection. *)
Theorem menu_success_without_data_breaks_the_page :
  forall (res : Response) (body : JsVal) (st : ListItemsPage.State),
    parse res = Ok body -> readable body = true ->
    truthy (prop body "success") = true ->
    readable (prop body "data") = false ->
    exists st',
      ListItemsPage.fetchItems (Resolved res) st =
      {| next := Ok st'; trace := [Fetch ListItemsPage.list_request] |} /\
      ListItemsPage.items st' = prop body "data" /\
      ListItemsPage.loading st' = false /\
      exists e, ListItemsView.view st' = Throw e.
Proof.
  intros res body st Hp Hr Hs Hd.
  destruct menu_calls_go_by_success_flag_holds as (_ & _ & Hfetch & _).
  unfold ListItemsPage.fetchItems.
  rewrite (Hfetch res body Hp Hr), Hs.
  eexists. split; [reflexivity|]. split; [reflexivity|].
  split; [reflexivity|].
  unfold ListItemsView.view.
  cbn [ListItemsPage.loading ListItemsPage.items ListItemsPage.setLoading
       ListItemsPage.setItems].
  destruct (get_unreadable (prop body "data") "length" Hd) as (e & ->).
  eexists. reflexivity.
Qed.

Lemma menu_success_without_data_breaks_the_page_witness :
  let res := {| status := 200;
                parse := Ok (JObj [("success", JBool true)]) |} in
  exists st',
    ListItemsPage.fetchItems (Resolved res) ListItemsPage.init =
    {| next := Ok st'; trace := [Fetch ListItemsPage.list_request] |} /\
    ListItemsPage.items st' = JUndefined /\
    ListItemsPage.loading st' = false /\
    exists e, ListItemsView.view st' = Throw e.
Proof.
  intros res.
  apply (menu_success_without_data_breaks_the_page res
           (JObj [("success", JBool true)]) ListItemsPage.init
           eq_refl eq_refl eq_refl eq_refl).
Defined.

(** X19.  On the menu items page every fetch and every confirmed
    delete ends in one of two ways: the collection is replaced and no alert
    is raised, or the collection is kept and exactly one alert is raised.
    Loading is off after every fetch, and a delete never leaves the page
    unable to render its next state, since its filter runs inside the
    handler's [try]. *)
Theorem menu_page_outcomes :
  forall (id : string) (settled : FetchOutcome) (st : ListItemsPage.State),
    (exists st',
       next (ListItemsPage.fetchItems settled st) = Ok st' /\
       ListItemsPage.loading st' = false /\
       let alerts := filter is_alert
                       (trace (ListItemsPage.fetchItems settled st)) in
       (alerts = [] /\
        ListItemsPage.fetchItems_try settled =
        Ok (Some (ListItemsPage.items st'))) \/
       (ListItemsPage.items st' = ListItemsPage.items st /\
        exists text, alerts = [Alert text])) /\
    (exists st',
       next (ListItemsPage.handleDelete id true settled st) = Ok st' /\
       ListItemsPage.loading st' = ListItemsPage.loading st /\
       let alerts := filter is_alert
                       (trace (ListItemsPage.handleDelete id true settled
                                 st)) in
       (alerts = [] /\
        ListItemsPage.handleDelete_try id settled st =
        Ok (inl (ListItemsPage.items st'))) \/
       (st' = st /\ exists text, alerts = [Alert text])).
Proof.
  intros id settled st. split.
  - unfold ListItemsPage.fetchItems.
    destruct (ListItemsPage.fetchItems_try settled) as [[v|]|e];
      cbn [next trace filter is_alert]; eexists;
      (split; [reflexivity|]); (split; [reflexivity|]).
    + left. split; reflexivity.
    + right. split; [reflexivity | eauto].
    + right. split; [reflexivity | eauto].
  - unfold ListItemsPage.handleDelete. cbn [negb].
    destruct (ListItemsPage.handleDelete_try id settled st) as [[v|t]|e];
      cbn [next trace filter is_alert]; eexists;
      (split; [reflexivity|]); (split; [reflexivity|]).
    + left. split; reflexivity.
    + right. split; [reflexivity | eauto].
    + right. split; [reflexivity | eauto].
Qed.

(** X20.  When a menu item delete is refused with a [message] that
    is truthy but prints as the empty string (an empty array, say), the
    alert raised by the page has an empty text. *)
Theorem menu_delete_can_alert_empty_text :
  forall (id : string) (res : Response) (body : JsVal)
         (st : ListItemsPage.State),
    parse res = Ok body -> readable body = true ->
    truthy (prop body "success") = false ->
    truthy (prop body "message") = true ->
    ToString (prop body "message") = "" ->
    ListItemsPage.handleDelete id true (Resolved res) st =
    {| next := Ok st;
       trace := [Confirm "Are you sure you want to delete this item?" true;
                 Fetch (ListItemsPage.delete_request id);
                 Alert ""] |}.
Proof.
  intros id res body st Hp Hr Hs Hm Ht.
  destruct menu_calls_go_by_success_flag_holds
    as (_ & _ & _ & _ & _ & Hdel).
  unfold ListItemsPage.handleDelete. cbn [negb].
  rewrite (Hdel id st res body Hp Hr), Hs.
  unfold or. rewrite Hm, Ht. reflexivity.
Qed.

Lemma menu_delete_can_alert_empty_text_witness :
  let res := {| status := 400;
                parse := Ok (JObj [("success", JBool false);
                                   ("message", JArr [])]) |} in
  ListItemsPage.handleDelete "m1" true (Resolved res) ListItemsPage.init =
  {| next := Ok ListItemsPage.init;
     trace := [Confirm "Are you sure you want to delete this item?" true;
               Fetch (ListItemsPage.delete_request "m1");
               Alert ""] |}.
Proof.
  intros res.
  apply (menu_delete_can_alert_empty_text "m1" res
           (JObj [("success", JBool false); ("message", JArr [])])
           ListItemsPage.init eq_refl eq_refl eq_refl eq_refl eq_refl).
Defined.

(** *** Pills *)

(** X21.  Every pill the orders table builds has a tone for which
    [StatusPill] holds classes: the delivery pill of any status, and the
    payment pill of any payment method it can classify. *)
Theorem pill_tones_have_colours :
  (forall status, exists classes,
     StatusPill.color (tone (OrderManagement.getDeliveryPill status))
       StatusPill.colors = Some classes) /\
  (forall pm p,
     OrderManagement.getPaymentPill pm = Ok p ->
     exists classes,
       StatusPill.color (tone p) StatusPill.colors = Some classes).
Proof.
  split.
  - intros status. unfold OrderManagement.getDeliveryPill.
    destruct (strict_eq_str status "delivered");
      [|destruct (strict_eq_str status "cancelled")];
      eexists; reflexivity.
  - intros pm p H. unfold OrderManagement.getPaymentPill in H.
    apply bind_ok in H as (m & _ & H).
    destruct (includes m "cod" || includes m "cash");
      [|destruct (includes m "online" || includes m "card"
                  || includes m "upi")];
      injection H as <-; eexists; reflexivity.
Qed.

Lemma pill_tones_have_colours_witness :
  exists classes,
    StatusPill.color "amber" StatusPill.colors = Some classes.
Proof.
  destruct pill_tones_have_colours as [_ H].
  apply (H (JStr "Cash on delivery")
           {| label := JStr "COD"; tone := "amber" |} eq_refl).
Defined.

(** *** The add item page *)

Lemma eqb_empty_false s : (s =? "") = false <-> s <> "".
Proof. apply String.eqb_neq. Qed.

(** X22.  The add item form sends its request exactly when the
    name, the category and the price are all filled in.  Otherwise it
    raises the one alert asking for them and leaves the whole state,
    loading included, as it was. *)
Theorem add_item_requires_name_category_price :
  forall (settled : FetchOutcome) (st : AddItem.State),
    let f := AddItem.formData st in
    let o := AddItem.handleSubmit settled st in
    (existsb AddItem.is_post (AddItem.trace o) = true <->
     AddItem.name f <> "" /\ AddItem.category f <> "" /\
     AddItem.price f <> "") /\
    (AddItem.name f = "" \/ AddItem.category f = "" \/ AddItem.price f = ""
     -> o = {| AddItem.next := st;
               AddItem.trace :=
                 [AddItem.Alert "Please fill all required fields"] |}).
Proof.
  intros settled st f o. subst f o. unfold AddItem.handleSubmit.
  destruct (AddItem.name (AddItem.formData st) =? "") eqn:En;
    destruct (AddItem.category (AddItem.formData st) =? "") eqn:Ec;
    destruct (AddItem.price (AddItem.formData st) =? "") eqn:Ep;
    cbn [orb];
    rewrite ?String.eqb_eq, ?String.eqb_neq in *.
  all: try (split; [split; [cbn; discriminate | intros (? & ? & ?); congruence]
                   | reflexivity]).
  split.
  - split; [auto|]. intros _.
    destruct (AddItem.handleSubmit_try settled) as [[t|]|e]; reflexivity.
  - intros [H|[H|H]]; congruence.
Qed.

Lemma add_item_requires_name_category_price_witness :
  let st := AddItem.mkState
              (AddItem.mkFormData "Margherita" "" "" "9" 0 0)
              None None false in
  AddItem.handleSubmit (Rejected (TypeError "Failed to fetch")) st =
  {| AddItem.next := st;
     AddItem.trace := [AddItem.Alert "Please fill all required fields"] |}.
Proof.
  intros st.
  destruct (add_item_requires_name_category_price
              (Rejected (TypeError "Failed to fetch")) st) as [_ H].
  apply H. right. left. reflexivity.
Defined.

(** X23.  For a filled-in add item form: the item counts as added
    exactly when the status is in the success range, the body parses and
    its [success] is truthy.  Then the form, the selected image and its
    preview are cleared.  In every other case what the user entered is
    kept as it was and exactly one alert is raised.  Loading is off
    afterwards in all cases. *)
Theorem add_item_clears_form_only_when_added :
  forall (settled : FetchOutcome) (st : AddItem.State),
    AddItem.name (AddItem.formData st) <> "" ->
    AddItem.category (AddItem.formData st) <> "" ->
    AddItem.price (AddItem.formData st) <> "" ->
    let o := AddItem.handleSubmit settled st in
    (forall res,
       AddItem.handleSubmit_try (Resolved res) = Ok None <->
       ok res = true /\
       exists body, parse res = Ok body /\ readable body = true /\
                    truthy (prop body "success") = true) /\
    (AddItem.handleSubmit_try settled = Ok None ->
     AddItem.next o = AddItem.init) /\
    (AddItem.handleSubmit_try settled <> Ok None ->
     AddItem.next o = AddItem.setLoading false st /\
     exists text, filter AddItem.is_alert (AddItem.trace o) =
                  [AddItem.Alert text]).
Proof.
  intros settled st Hn Hc Hp o. subst o.
  apply String.eqb_neq in Hn, Hc, Hp.
  unfold AddItem.handleSubmit. rewrite Hn, Hc, Hp. cbn [orb].
  split; [|split].
  - intros res. unfold AddItem.handleSubmit_try, json. cbn [await bind].
    destruct (parse res) as [body|e] eqn:Hparse; cbn [bind].
    + destruct (ok res) eqn:Hok; cbn [bind].
      * destruct (readable body) eqn:Hr.
        -- rewrite !(get_readable body _ Hr). cbn [bind].
           destruct (truthy (prop body "success")) eqn:Hs.
           ++ split; [eauto 6 | reflexivity].
           ++ split; [discriminate|].
              intros (_ & b & Hb & _ & Hs'). congruence.
        -- destruct (get_unreadable body "success" Hr) as (e & ->).
           cbn [bind]. split; [discriminate|].
           intros (_ & b & Hb & Hr' & _). congruence.
      * split; [|intros (H & _); discriminate].
        destruct (get body "message"); discriminate.
    + split; [discriminate|]. intros (_ & b & Hb & _). discriminate.
  - intros ->. reflexivity.
  - intros H.
    destruct (AddItem.handleSubmit_try settled) as [[t|]|e];
      [| contradiction |]; cbn [AddItem.next AddItem.trace];
      (split; [reflexivity | eexists; reflexivity]).
Qed.

Lemma add_item_clears_form_only_when_added_witness :
  let st := AddItem.mkState
              (AddItem.mkFormData "Margherita" "Classic" "Pizza" "9" 4 10)
              (Some (AddItem.mkFile "margherita.png"))
              (Some "data:image/png;base64,AAAA") false in
  let settled := Resolved {| status := 500;
                             parse := Ok (JObj [("success", JBool true)]) |} in
  AddItem.next (AddItem.handleSubmit settled st) = st.
Proof.
  intros st settled.
  assert (Hn : "Margherita" <> "") by discriminate.
  assert (Hc : "Pizza" <> "") by discriminate.
  assert (Hp : "9" <> "") by discriminate.
  destruct (add_item_clears_form_only_when_added settled st Hn Hc Hp)
    as (_ & _ & H).
  assert (Hfail : AddItem.handleSubmit_try settled <> Ok None)
    by discriminate.
  destruct (H Hfail) as [Hnext _]. exact Hnext.
Defined.

(** X24.  A click on a star of the add item form sets the rating and
    nothing else, and for a rating from 0 to 5 the form then shows exactly
    that many filled stars, followed by the empty ones. *)
Theorem rating_click_fills_that_many_stars :
  forall (r : Z) (st : AddItem.State),
    (0 <= r <= 5)%Z ->
    let st' := AddItem.handleRatingClick r st in
    AddItem.stars st' =
    (repeat true (Z.to_nat r) ++ repeat false (5 - Z.to_nat r))%list /\
    AddItem.rating (AddItem.formData st') = r /\
    AddItem.name (AddItem.formData st') = AddItem.name (AddItem.formData st) /\
    AddItem.description (AddItem.formData st') =
    AddItem.description (AddItem.formData st) /\
    AddItem.category (AddItem.formData st') =
    AddItem.category (AddItem.formData st) /\
    AddItem.price (AddItem.formData st') =
    AddItem.price (AddItem.formData st) /\
    AddItem.popularity (AddItem.formData st') =
    AddItem.popularity (AddItem.formData st) /\
    AddItem.selectedImage st' = AddItem.selectedImage st /\
    AddItem.imagePreview st' = AddItem.imagePreview st /\
    AddItem.loading st' = AddItem.loading st.
Proof.
  intros r st Hr st'. subst st'.
  split; [|repeat split].
  assert (H : (r = 0 \/ r = 1 \/ r = 2 \/ r = 3 \/ r = 4 \/ r = 5)%Z) by lia.
  destruct H as [->|[->|[->|[->|[->| ->]]]]]; reflexivity.
Qed.

Lemma rating_click_fills_that_many_stars_witness :
  AddItem.stars (AddItem.handleRatingClick 3 AddItem.init) =
  [true; true; true; false; false].
Proof.
  assert (H : (0 <= 3 <= 5)%Z) by lia.
  destruct (rating_click_fills_that_many_stars 3 AddItem.init H) as [Hs _].
  exact Hs.
Defined.

(** *** Session storage: login and logout *)

Section StorageFacts.
Import LocalStorage.

Lemma getItem_removeItem_same k s : getItem k (removeItem k s) = None.
Proof.
  induction s as [|[k' v] r IH]; simpl; [reflexivity|].
  destruct (k' =? k) eqn:E; simpl; [exact IH|]. now rewrite E.
Qed.

Lemma getItem_removeItem_other k k0 s :
  k0 <> k -> getItem k0 (removeItem k s) = getItem k0 s.
Proof.
  intros Hne. induction s as [|[k' v] r IH]; simpl; [reflexivity|].
  destruct (k' =? k) eqn:E; simpl.
  - apply String.eqb_eq in E. subst k'.
    destruct (k =? k0) eqn:E'; [|exact IH].
    apply String.eqb_eq in E'. congruence.
  - now rewrite IH.
Qed.

Lemma getItem_setItem_same k v s : getItem k (setItem k v s) = Some v.
Proof. unfold setItem. simpl. now rewrite String.eqb_refl. Qed.

Lemma getItem_setItem_other k k0 v s :
  k0 <> k -> getItem k0 (setItem k v s) = getItem k0 s.
Proof.
  intros Hne. unfold setItem. simpl.
  destruct (k =? k0) eqn:E.
  - apply String.eqb_eq in E. congruence.
  - now apply getItem_removeItem_other.
Qed.

Lemma present_unchanged k s s' :
  getItem k s' = getItem k s -> present k s' = present k s.
Proof. unfold present. now intros ->. Qed.

End StorageFacts.

Lemma login_try_admitted res token user :
  AdminLoginModal.handleSubmit_try (Resolved res) =
  Ok (AdminLoginModal.Granted token user) <->
  ok res = true /\
  exists body,
    parse res = Ok body /\
    strict_eq_str (prop (prop body "data") "role") "admin" = true /\
    user = prop body "data" /\ token = prop user "token".
Proof.
  unfold AdminLoginModal.handleSubmit_try, json. cbn [await bind].
  destruct (parse res) as [body|e]; cbn [bind].
  2:{ split; [discriminate|]. intros (_ & b & Hb & _). discriminate. }
  destruct (ok res); cbn [negb bind].
  2:{ split; [|intros (H & _); discriminate].
      destruct (get body "message"); discriminate. }
  destruct (readable body) eqn:Hb.
  - rewrite (get_readable body "data" Hb). cbn [bind].
    destruct (readable (prop body "data")) eqn:Hd.
    + rewrite !(get_readable _ _ Hd). cbn [bind].
      destruct (strict_eq_str (prop (prop body "data") "role") "admin")
        eqn:Hrole; cbn [negb].
      * split.
        -- intros H. injection H as <- <-. eauto 7.
        -- intros (_ & b & Hb' & _ & -> & ->).
           injection Hb' as <-. reflexivity.
      * split; [discriminate|].
        intros (_ & b & Hb' & Hr & _). injection Hb' as <-. congruence.
    + destruct (get_unreadable (prop body "data") "role" Hd) as (e & He).
      rewrite He. cbn [bind]. split; [discriminate|].
      intros (_ & b & Hb' & Hr & _). injection Hb' as <-.
      unfold prop at 1 in Hr. rewrite He in Hr. discriminate.
  - destruct (get_unreadable body "data" Hb) as (e & He).
    rewrite He. cbn [bind]. split; [discriminate|].
    intros (_ & b & Hb' & Hr & _). injection Hb' as <-.
    unfold prop at 2 in Hr. rewrite He in Hr. discriminate.
Qed.

(** X25.  With e-mail and password filled in, the admin login
    navigates to the orders page exactly when the response has a status in
    the success range and its body carries [data.role] equal to "admin".
    In every other case (failed request, refused login, other role, body
    that does not parse) it navigates nowhere, leaves the storage as it
    was, and shows a truthy error; loading is off afterwards. *)
Theorem admin_login_admits_admin_role_only :
  forall (res : Response) (store : LocalStorage.Storage)
         (st : AdminLoginModal.State),
    AdminLoginModal.email (AdminLoginModal.formData st) <> "" ->
    AdminLoginModal.password (AdminLoginModal.formData st) <> "" ->
    let o := AdminLoginModal.handleSubmit (Resolved res) store st in
    let admin :=
      ok res = true /\
      exists body,
        parse res = Ok body /\
        strict_eq_str (prop (prop body "data") "role") "admin" = true in
    (existsb AdminLoginModal.is_navigate (AdminLoginModal.trace o) = true
     <-> admin) /\
    (~ admin ->
     AdminLoginModal.storage o = store /\
     truthy (AdminLoginModal.error (AdminLoginModal.next o)) = true) /\
    AdminLoginModal.loading (AdminLoginModal.next o) = false.
Proof.
  intros res store st He Hp o admin. subst o admin.
  apply String.eqb_neq in He, Hp.
  unfold AdminLoginModal.handleSubmit.
  cbn [AdminLoginModal.formData AdminLoginModal.setError].
  rewrite He, Hp. cbn [orb].
  destruct (AdminLoginModal.handleSubmit_try (Resolved res))
    as [[shown|token user]|err] eqn:E.
  - cbn. split; [|split; [|reflexivity]].
    + split; [discriminate|].
      intros (Hok & body & Hb & Hr).
      assert (Hadm : AdminLoginModal.handleSubmit_try (Resolved res) =
                     Ok (AdminLoginModal.Granted
                           (prop (prop body "data") "token")
                           (prop body "data"))).
      { apply login_try_admitted. eauto 7. }
      congruence.
    + intros _. split; [reflexivity|].
      revert E. unfold AdminLoginModal.handleSubmit_try, json.
      cbn [await bind]. destruct (parse res) as [body|e];
        cbn [bind]; [|discriminate].
      destruct (ok res); cbn [negb bind].
      * destruct (get body "data") as [d|e]; cbn [bind]; [|discriminate].
        destruct (get d "role") as [r|e]; cbn [bind]; [|discriminate].
        destruct (strict_eq_str r "admin"); cbn [negb bind].
        -- destruct (get d "token"); discriminate.
        -- intros H. injection H as <-. reflexivity.
      * destruct (get body "message") as [m|e]; cbn [bind]; [|discriminate].
        intros H. injection H as <-. unfold or.
        destruct (truthy m) eqn:Hm; [exact Hm | reflexivity].
  - apply login_try_admitted in E as (Hok & body & Hb & Hr & _).
    cbn. split; [|split; [|reflexivity]].
    + split; eauto.
    + intros H. exfalso. apply H. eauto.
  - cbn. split; [|split; [|reflexivity]].
    + split; [discriminate|].
      intros (Hok & body & Hb & Hr).
      assert (Hadm : AdminLoginModal.handleSubmit_try (Resolved res) =
                     Ok (AdminLoginModal.Granted
                           (prop (prop body "data") "token")
                           (prop body "data"))).
      { apply login_try_admitted. eauto 7. }
      congruence.
    + intros _. split; [reflexivity|]. unfold or.
      destruct (truthy (JStr (message err))) eqn:Hm;
        [exact Hm | reflexivity].
Qed.

Lemma admin_login_admits_admin_role_only_witness :
  let res := {| status := 200;
                parse := Ok (JObj [("data",
                                    JObj [("role", JStr "customer");
                                          ("token", JStr "t0k3n")])]) |} in
  let st := AdminLoginModal.mkState
              (AdminLoginModal.mkFormData "a@b.c" "secret") false
              (JStr "") in
  let o := AdminLoginModal.handleSubmit (Resolved res) [] st in
  existsb AdminLoginModal.is_navigate (AdminLoginModal.trace o) = false /\
  AdminLoginModal.storage o = [] /\
  AdminLoginModal.error (AdminLoginModal.next o) =
  JStr "Access denied. Admin only.".
Proof.
  intros res st o.
  assert (He : "a@b.c" <> "") by discriminate.
  assert (Hp : "secret" <> "") by discriminate.
  destruct (admin_login_admits_admin_role_only res [] st He Hp)
    as (_ & H & _).
  split; [reflexivity|]. split; [|reflexivity].
  apply H. intros (_ & body & Hb & Hr).
  injection Hb as <-. discriminate Hr.
Defined.

(** X26.  Whatever the response, the admin login writes no storage
    key other than [adminToken] and [adminUser].  In particular the key
    [token], which the orders page and the navigation bar read, is as it
    was before the login; and on an admitted login [adminToken] holds the
    text of [data.data.token]. *)
Theorem admin_login_writes_only_its_two_keys :
  forall (settled : FetchOutcome) (store : LocalStorage.Storage)
         (st : AdminLoginModal.State),
    let o := AdminLoginModal.handleSubmit settled store st in
    (forall k, k <> "adminToken" -> k <> "adminUser" ->
       LocalStorage.getItem k (AdminLoginModal.storage o) =
       LocalStorage.getItem k store) /\
    AdminNavbar.isLoggedIn
      (AdminNavbar.mount (AdminLoginModal.storage o) AdminNavbar.init) =
    AdminNavbar.isLoggedIn (AdminNavbar.mount store AdminNavbar.init) /\
    (forall token user,
       existsb AdminLoginModal.is_navigate (AdminLoginModal.trace o) = true ->
       AdminLoginModal.handleSubmit_try settled =
       Ok (AdminLoginModal.Granted token user) ->
       LocalStorage.getItem "adminToken" (AdminLoginModal.storage o) =
       Some (LocalStorage.Text (ToString token))).
Proof.
  intros settled store st o.
  assert (Hkeys : forall k, k <> "adminToken" -> k <> "adminUser" ->
            LocalStorage.getItem k (AdminLoginModal.storage o) =
            LocalStorage.getItem k store).
  { intros k H1 H2. subst o. unfold AdminLoginModal.handleSubmit.
    destruct (_ || _); [reflexivity|].
    destruct (AdminLoginModal.handleSubmit_try settled) as [[s|t u]|e];
      cbn [AdminLoginModal.storage]; try reflexivity.
    rewrite !getItem_setItem_other by assumption. reflexivity. }
  split; [exact Hkeys|]. split.
  - unfold AdminNavbar.mount. cbn [AdminNavbar.isLoggedIn
      AdminNavbar.setIsLoggedIn].
    apply present_unchanged, Hkeys; discriminate.
  - intros token user Hnav Htry. subst o.
    unfold AdminLoginModal.handleSubmit in *.
    destruct (_ || _); [discriminate Hnav|].
    rewrite Htry. cbn [AdminLoginModal.storage].
    rewrite getItem_setItem_other by discriminate.
    apply getItem_setItem_same.
Qed.

Lemma admin_login_writes_only_its_two_keys_witness :
  let settled :=
    Resolved {| status := 200;
                parse := Ok (JObj [("data",
                                    JObj [("role", JStr "admin");
                                          ("token", JStr "t0k3n")])]) |} in
  let st := AdminLoginModal.mkState
              (AdminLoginModal.mkFormData "a@b.c" "secret") false
              (JStr "") in
  let o := AdminLoginModal.handleSubmit settled [] st in
  LocalStorage.getItem "adminToken" (AdminLoginModal.storage o) =
  Some (LocalStorage.Text "t0k3n") /\
  LocalStorage.getItem "token" (AdminLoginModal.storage o) = None.
Proof.
  intros settled st o.
  destruct (admin_login_writes_only_its_two_keys settled [] st)
    as (Hkeys & _ & Htoken).
  split.
  - apply (Htoken (JStr "t0k3n")
             (JObj [("role", JStr "admin"); ("token", JStr "t0k3n")])
             eq_refl eq_refl).
  - apply (Hkeys "token"); discriminate.
Defined.

(** X27.  Logging out removes the keys [token] and [user] and no
    other: every other key, the [adminToken] and [adminUser] of an admin
    login included, keeps its value.  Afterwards the bar is logged out,
    also when it is mounted again, and the user is sent to "/". *)
Theorem logout_clears_token_and_user_only :
  forall (store : LocalStorage.Storage) (st : AdminNavbar.State),
    let '(st', store', path) := AdminNavbar.handleLogout store st in
    LocalStorage.getItem "token" store' = None /\
    LocalStorage.getItem "user" store' = None /\
    (forall k, k <> "token" -> k <> "user" ->
       LocalStorage.getItem k store' = LocalStorage.getItem k store) /\
    AdminNavbar.isLoggedIn st' = false /\
    AdminNavbar.isLoggedIn (AdminNavbar.mount store' st') = false /\
    path = "/".
Proof.
  intros store st. cbn [AdminNavbar.handleLogout].
  split; [|split; [|split; [|repeat split]]].
  - rewrite getItem_removeItem_other by discriminate.
    apply getItem_removeItem_same.
  - apply getItem_removeItem_same.
  - intros k H1 H2.
    rewrite !getItem_removeItem_other by assumption. reflexivity.
  - unfold AdminNavbar.mount, LocalStorage.present.
    cbn [AdminNavbar.isLoggedIn AdminNavbar.setIsLoggedIn].
    rewrite getItem_removeItem_other by discriminate.
    now rewrite getItem_removeItem_same.
Qed.

(** *** The two exports of the orders *)

(** X28.  The export button of the orders page never produces a
    download: in every state the handler throws, and when its rows can be
    built the throw is the reference to [downloadFile], which that module
    does not define.  On the same orders the export of the admin panel,
    which saves through [saveAs], downloads one row per order. *)
Theorem orders_page_export_throws_where_panel_downloads :
  (forall st, exists e, OrderManagement.exportOrdersToExcel st = Throw e) /\
  (forall (l : list JsVal) (contacts : JsVal) (loading : bool)
          (error : JsVal),
     forallb order_exportable l = true ->
     OrderManagement.exportOrdersToExcel
       (OrderManagement.mkState (JArr l) loading error) =
     Throw (ReferenceError "downloadFile is not defined") /\
     exists rows,
       AdminPanel.exportOrdersToExcel
         (AdminPanel.mkState (JArr l) contacts loading error) =
       Ok [Download "Orders_Report.xlsx" "Orders" rows] /\
       List.length rows = List.length l).
Proof.
  split.
  - intros st. unfold OrderManagement.exportOrdersToExcel.
    destruct (OrderManagement.formatted (OrderManagement.orders st));
      cbn [bind]; eauto.
  - intros l contacts loading error H.
    destruct (formatted_total (row := OrderManagement.format_order)
                order_exportable l) as (rows & Hrows & Hlen);
      [|exact H|].
    { intros o Ho. unfold order_exportable in Ho.
      apply andb_prop in Ho as [Hr Hi]. now apply format_order_ok. }
    unfold OrderManagement.exportOrdersToExcel,
      AdminPanel.exportOrdersToExcel, OrderManagement.formatted.
    cbn [OrderManagement.orders AdminPanel.orders array_method bind].
    rewrite Hrows. cbn [bind]. split; [reflexivity|]. eauto.
Qed.

Lemma orders_page_export_throws_where_panel_downloads_witness :
  let o := JObj [("_id", JStr "o1"); ("items", JArr [])] in
  OrderManagement.exportOrdersToExcel
    (OrderManagement.mkState (JArr [o]) false JNull) =
  Throw (ReferenceError "downloadFile is not defined").
Proof.
  intros o.
  destruct orders_page_export_throws_where_panel_downloads as [_ H].
  destruct (H [o] (JArr []) false JNull eq_refl) as [Hthrow _].
  exact Hthrow.
Defined.
